(** * The gateway eligibility filter ([src/services/filter.ts])

    A shallow embedding of [FilterService]: the four gates of
    [applyAllFilters], the projection [mapToResponse] with its limit,
    service-time and balance fall-back chains, and the fee estimation table
    with its memoisation cache.

    The service receives its snapshot from [response.json()] and casts it
    ([gateway as Gateway]) without validating it, so gateways and providers
    are modelled as untyped JavaScript values, and the operators the source
    applies to them ([?.], [??], [||], [!], [===], [typeof], property
    access, [split], [trim]) are modelled on such values.  A property access
    on [undefined] or [null], and a call of a method the receiver does not
    have, raise a [TypeError].  The [balances] and [errors] records keep the
    type [manager-api.ts] declares for them, [Record<string, number>].

    Numbers are exact rationals together with [NaN]: the rounding error of
    IEEE doubles and the infinities are outside the model.  Objects carry
    their own properties only (members inherited from [Object.prototype] are
    outside the model), in insertion order.

    The cache of fee tables is the one piece of state of the service; it is
    passed in and out of every function that reaches it.  The clock the time
    gate reads is a parameter of the run.  Logging is left out, and so is
    [checkBalanceLimit], which nothing calls. *)

From Stdlib Require Import List String Ascii Bool ZArith QArith Qround Lia.
From Stdlib Require Import DecimalString Lqa.
Import ListNotations.

Local Open Scope string_scope.
Local Open Scope list_scope.

(** ** Numbers *)

Inductive num : Type :=
| NaN
| Fin (q : Q).

Definition num_binop (f : Q -> Q -> Q) (a b : num) : num :=
  match a, b with
  | Fin x, Fin y => Fin (Qred (f x y))
  | _, _ => NaN
  end.

Definition nmul : num -> num -> num := num_binop Qmult.
Definition nadd : num -> num -> num := num_binop Qplus.

(** The only divisor in the source is the literal [100]. *)
Definition ndiv (a b : num) : num :=
  match a, b with
  | Fin x, Fin y => if Qeq_bool y 0 then NaN else Fin (Qred (x / y))
  | _, _ => NaN
  end.

(** [a < b], [a <= b] and [a >= b]: false as soon as one side is [NaN]. *)
Definition nlt (a b : num) : bool :=
  match a, b with
  | Fin x, Fin y => negb (Qle_bool y x)
  | _, _ => false
  end.

Definition nle (a b : num) : bool :=
  match a, b with
  | Fin x, Fin y => Qle_bool x y
  | _, _ => false
  end.

Definition nge (a b : num) : bool := nle b a.

(** [Math.round]: the nearest integer, a tie going towards plus infinity. *)
Definition Math_round (a : num) : num :=
  match a with
  | Fin x => Fin (inject_Z (Qfloor (x + (1 # 2))))
  | NaN => NaN
  end.

Definition Math_max (a b : num) : num :=
  match a, b with
  | Fin x, Fin y => Fin (if Qle_bool x y then y else x)
  | _, _ => NaN
  end.

Definition num_of_Z (z : Z) : num := Fin (inject_Z z).

(** Structural comparison, used for the serialised cache keys. *)
Definition num_eqb (a b : num) : bool :=
  match a, b with
  | NaN, NaN => true
  | Fin x, Fin y => Z.eqb (Qnum x) (Qnum y) && Pos.eqb (Qden x) (Qden y)
  | _, _ => false
  end.

(** ** Values *)

#[local] Set Warnings "-register-all".

Inductive value : Type :=
| VUndef
| VNull
| VBool (b : bool)
| VNum (n : num)
| VStr (s : string)
| VArr (xs : list value)
| VObj (fields : list (string * value)).

Definition VZ (z : Z) : value := VNum (num_of_Z z).

Inductive error : Type :=
| TypeError.

Inductive result (A : Type) : Type :=
| Ok (a : A)
| Throw (e : error).

Arguments Ok {A} a.
Arguments Throw {A} e.

Definition rbind {A B} (r : result A) (k : A -> result B) : result B :=
  match r with
  | Ok a => k a
  | Throw e => Throw e
  end.

Notation "x <- e1 ;; e2" := (rbind e1 (fun x => e2))
  (at level 61, e1 at next level, right associativity).

(** What the number syntax of the host does is not part of the repository:
    [Number(s)] on a string and the printing of a number are taken from the
    host.  Every theorem below holds for every host. *)
Class Host : Type := {
  StringToNumber : string -> num;
  NumberToString : num -> string
}.

Definition nullish (v : value) : bool :=
  match v with
  | VUndef | VNull => true
  | _ => false
  end.

(** [ToBoolean]. *)
Definition truthy (v : value) : bool :=
  match v with
  | VUndef | VNull => false
  | VBool b => b
  | VNum NaN => false
  | VNum (Fin q) => negb (Qeq_bool q 0)
  | VStr s => negb (String.eqb s "")
  | VArr _ | VObj _ => true
  end.

(** [a || b] and [a ?? b]. *)
Definition or_else (a b : value) : value := if truthy a then a else b.
Definition coalesce (a b : value) : value := if nullish a then b else a.

Infix "<||>" := or_else (at level 51, left associativity).
Infix "<??>" := coalesce (at level 51, left associativity).

Fixpoint lookup {A} (k : string) (fs : list (string * A)) : option A :=
  match fs with
  | [] => None
  | (k', v) :: fs' => if String.eqb k' k then Some v else lookup k fs'
  end.

(** [o.k] for an [o] that is neither [undefined] nor [null], and [o?.k] for
    every [o]: a primitive, an array and an object without the property
    give [undefined]. *)
Definition get (o : value) (k : string) : value :=
  match o with
  | VObj fs => match lookup k fs with Some v => v | None => VUndef end
  | _ => VUndef
  end.

Notation "o ?. k" := (get o k) (at level 2, left associativity, format "o ?. k").

(** [o[k] = v] on the property list: an existing property keeps its place. *)
Fixpoint obj_set (fs : list (string * value)) (k : string) (v : value)
  : list (string * value) :=
  match fs with
  | [] => [(k, v)]
  | (k', v') :: fs' =>
      if String.eqb k' k then (k', v) :: fs' else (k', v') :: obj_set fs' k v
  end.

(** [typeof v === 'object'] and [typeof v === 'number']. *)
Definition typeof_object (v : value) : bool :=
  match v with
  | VNull | VArr _ | VObj _ => true
  | _ => false
  end.

Definition typeof_number (v : value) : bool :=
  match v with
  | VNum _ => true
  | _ => false
  end.

(** [v === 'literal'] and [v === true]. *)
Definition is_string (v : value) (lit : string) : bool :=
  match v with
  | VStr s => String.eqb s lit
  | _ => false
  end.

Definition is_true (v : value) : bool :=
  match v with
  | VBool true => true
  | _ => false
  end.

(** ** Strings *)

Definition string_join (sep : string) (l : list string) : string :=
  match l with
  | [] => ""
  | s :: rest => fold_left (fun acc x => (acc ++ sep ++ x)%string) rest s
  end.

(** [s.split(':')]. *)
Fixpoint split_colon_aux (cur : string) (s : string) : list string :=
  match s with
  | EmptyString => [cur]
  | String c s' =>
      if Ascii.eqb c ":"%char
      then cur :: split_colon_aux "" s'
      else split_colon_aux (cur ++ String c "")%string s'
  end.

Definition split_colon (s : string) : list string := split_colon_aux "" s.

(** White space of [String.prototype.trim], on the ASCII range. *)
Definition is_space (c : ascii) : bool :=
  let n := nat_of_ascii c in
  Nat.eqb n 32 || (Nat.leb 9 n && Nat.leb n 13).

Fixpoint trim_left (s : string) : string :=
  match s with
  | EmptyString => EmptyString
  | String c s' => if is_space c then trim_left s' else s
  end.

Fixpoint string_rev_onto (s acc : string) : string :=
  match s with
  | EmptyString => acc
  | String c s' => string_rev_onto s' (String c acc)
  end.

Definition string_rev (s : string) : string := string_rev_onto s "".

Definition trim (s : string) : string :=
  string_rev (trim_left (string_rev (trim_left s))).

(** [amount.toString()] for the integer amounts of the fee table. *)
Definition Z_toString (z : Z) : string := NilZero.string_of_int (Z.to_int z).

Section Coercions.
Context {host : Host}.

(** [String(v)], as a template literal and a property key apply it. *)
Fixpoint ToString (v : value) : string :=
  match v with
  | VUndef => "undefined"
  | VNull => "null"
  | VBool true => "true"
  | VBool false => "false"
  | VNum n => NumberToString n
  | VStr s => s
  | VArr xs =>
      string_join ","
        (map (fun x => if nullish x then "" else ToString x) xs)
  | VObj _ => "[object Object]"
  end.

(** [ToNumber]: arrays and objects go through their string. *)
Definition ToNumber (v : value) : num :=
  match v with
  | VUndef => NaN
  | VNull => Fin 0
  | VBool b => Fin (if b then 1 else 0)
  | VNum n => n
  | VStr s => StringToNumber s
  | VArr _ | VObj _ => StringToNumber (ToString v)
  end.

(** [r[k]] on a [Record<string, number>]. *)
Definition record_get (r : list (string * num)) (k : value) : value :=
  match lookup (ToString k) r with
  | Some n => VNum n
  | None => VUndef
  end.

(** [s.split(':').map(Number)]; a receiver without a [split] method
    raises. *)
Definition split_numbers (v : value) : result (list num) :=
  match v with
  | VStr s => Ok (map StringToNumber (split_colon s))
  | _ => Throw TypeError
  end.
End Coercions.

(** A host for the examples: [Number] reads a run of decimal digits (the
    empty string as 0) and gives [NaN] on everything else, and an integer
    prints in decimal.  On the strings and numbers of the examples this is
    what JavaScript does. *)
Definition digit_of (c : ascii) : option Z :=
  let n := nat_of_ascii c in
  if (Nat.leb 48 n && Nat.leb n 57)%bool then Some (Z.of_nat (n - 48)) else None.

Fixpoint digits_value (acc : Z) (s : string) : option Z :=
  match s with
  | EmptyString => Some acc
  | String c s' =>
      match digit_of c with
      | Some d => digits_value (10 * acc + d) s'
      | None => None
      end
  end.

Definition decimal_StringToNumber (s : string) : num :=
  match digits_value 0 s with
  | Some z => num_of_Z z
  | None => NaN
  end.

Definition decimal_NumberToString (n : num) : string :=
  match n with
  | NaN => "NaN"
  | Fin q => Z_toString (Qfloor q)
  end.

#[export] Instance decimalHost : Host := {|
  StringToNumber := decimal_StringToNumber;
  NumberToString := decimal_NumberToString
|}.

(** ** Maps and the snapshot *)

(** The key comparison of a JavaScript [Map].  Two objects are the same key
    only when they are the same object, which two values parsed from the
    snapshot never are. *)
Definition sameValueZero (a b : value) : bool :=
  match a, b with
  | VUndef, VUndef | VNull, VNull => true
  | VBool x, VBool y => Bool.eqb x y
  | VNum NaN, VNum NaN => true
  | VNum (Fin x), VNum (Fin y) => Qeq_bool x y
  | VStr x, VStr y => String.eqb x y
  | _, _ => false
  end.

Definition Map : Type := list (value * value).

Fixpoint Map_set (m : Map) (k v : value) : Map :=
  match m with
  | [] => [(k, v)]
  | (k', v') :: m' =>
      if sameValueZero k' k then (k', v) :: m' else (k', v') :: Map_set m' k v
  end.

Fixpoint Map_get (m : Map) (k : value) : value :=
  match m with
  | [] => VUndef
  | (k', v) :: m' => if sameValueZero k' k then v else Map_get m' k
  end.

(** [BatchDataResponse] of [manager-api.ts]: every part may be missing. *)
Record BatchDataResponse : Type := {
  gateways : option (list value);
  balances : option (list (string * num));
  errors : option (list (string * num));
  providers : option (list value)
}.

Definition or_default {A} (o : option A) (d : A) : A :=
  match o with
  | Some a => a
  | None => d
  end.

(** [new Date()]: the wall clock of the process, read by the time gate. *)
Record Clock : Type := {
  getHours : Z;
  getMinutes : Z
}.

(** ** The fee table cache *)

(** [JSON.stringify] of the cache key is modelled by the serialised value
    itself, compared structurally: the serialisation is taken to be
    injective. *)
Fixpoint value_eqb (a b : value) : bool :=
  match a, b with
  | VUndef, VUndef | VNull, VNull => true
  | VBool x, VBool y => Bool.eqb x y
  | VNum x, VNum y => num_eqb x y
  | VStr x, VStr y => String.eqb x y
  | VArr xs, VArr ys =>
      (fix all2 (xs ys : list value) : bool :=
         match xs, ys with
         | [], [] => true
         | x :: xs', y :: ys' => value_eqb x y && all2 xs' ys'
         | _, _ => false
         end) xs ys
  | VObj fs, VObj gs =>
      (fix all2 (fs gs : list (string * value)) : bool :=
         match fs, gs with
         | [], [] => true
         | (k, x) :: fs', (l, y) :: gs' =>
             String.eqb k l && value_eqb x y && all2 fs' gs'
         | _, _ => false
         end) fs gs
  | _, _ => false
  end.

Definition FeeTableCache : Type := list (value * value).

Fixpoint cache_get (c : FeeTableCache) (key : value) : option value :=
  match c with
  | [] => None
  | (k, t) :: c' => if value_eqb k key then Some t else cache_get c' key
  end.

Fixpoint cache_set (c : FeeTableCache) (key t : value) : FeeTableCache :=
  match c with
  | [] => [(key, t)]
  | (k, t') :: c' =>
      if value_eqb k key then (k, t) :: c' else (k, t') :: cache_set c' key t
  end.

(** ** FilterService *)

Definition ERROR_LIMIT : num := num_of_Z 5.

Definition response_fields : list string :=
  [ "gatewayId"; "provider"; "name"; "site"; "status"; "paymentMethods";
    "min"; "max"; "limit"; "balanceLimit";
    "type"; "isGroup"; "isInGroup"; "group"; "description";
    "currentBalance"; "totalBalance"; "serviceTime"; "option" ].

Section FilterService.
Context {host : Host}.

(** Filter 1: [gateway.status === true]. *)
Definition checkStatus (gateway : value) : result bool :=
  if nullish gateway then Throw TypeError
  else Ok (is_true gateway?."status").

(** The deposit window the time gate reads: a [??] chain. *)
Definition gate_time (gateway provider : value) (field : string) : value :=
  gateway?."metaConfig"?."operateTime"?."deposit"?.field
  <??> gateway?."serviceTime"?."deposit"?.field
  <??> provider?."operateTime"?."deposit"?.field.

(** [hour * 60 + min] after [[hour, min] = ...]: a missing second part is
    [undefined], which the sum turns into [NaN]. *)
Definition minutes_of (parts : list num) : num :=
  nadd (nmul (nth 0 parts NaN) (Fin 60)) (nth 1 parts NaN).

(** Filter 2: the current time lies in the deposit window. *)
Definition checkTimeRange (now : Clock) (gateway : value) (providerMap : Map)
  : result bool :=
  if nullish gateway then Throw TypeError else
  let provider := Map_get providerMap gateway?."provider" in
  let openingTime := gate_time gateway provider "openingTime" in
  let closingTime := gate_time gateway provider "closingTime" in
  if negb (truthy openingTime) || negb (truthy closingTime) then Ok true else
  let currentTime := num_of_Z (getHours now * 60 + getMinutes now) in
  opening <- split_numbers openingTime ;;
  closing <- split_numbers closingTime ;;
  let startTime := minutes_of opening in
  let endTime := minutes_of closing in
  Ok (nge currentTime startTime && nle currentTime endTime).

(** [gateway.provider.trim().length]. *)
Definition trim_length (v : value) : result nat :=
  match v with
  | VStr s => Ok (String.length (trim s))
  | _ => Throw TypeError
  end.

(** Filter 3: the provider is named, listed and active. *)
Definition checkProvider (gateway : value) (providerMap : Map) : result bool :=
  if nullish gateway then Throw TypeError else
  blank <- (if negb (truthy gateway?."provider") then Ok true
            else len <- trim_length gateway?."provider" ;; Ok (Nat.eqb len 0)) ;;
  if blank then Ok false else
  let provider := Map_get providerMap gateway?."provider" in
  if negb (truthy provider) then Ok false else
  if negb (truthy provider?."isActive") || truthy provider?."isDisabled"
  then Ok false
  else Ok true.

(** Filter 4: fewer than [ERROR_LIMIT] recent errors. *)
Definition checkErrorLimit (gateway : value) (errors : list (string * num))
  : result bool :=
  if nullish gateway then Throw TypeError else
  let errorCount := record_get errors gateway?."provider" <||> VZ 0 in
  Ok (nlt (ToNumber errorCount) ERROR_LIMIT).

Definition applyAllFilters (now : Clock) (gateway : value)
  (balances errors : list (string * num)) (providerMap : Map) : result bool :=
  s <- checkStatus gateway ;;
  if negb s then Ok false else
  t <- checkTimeRange now gateway providerMap ;;
  if negb t then Ok false else
  p <- checkProvider gateway providerMap ;;
  if negb p then Ok false else
  e <- checkErrorLimit gateway errors ;;
  if negb e then Ok false else
  Ok true.

Definition calculateFee (amount : Z) (feeConfig : value) : value :=
  if negb (truthy feeConfig) then VZ 0 else
  if is_string feeConfig?."type" "fixed" then
    feeConfig?."value" <||> VZ 0
  else if is_string feeConfig?."type" "percentage"
          || is_string feeConfig?."type" "percent" then
    let calculatedFee :=
      ndiv (Math_round
              (nmul (ndiv (nmul (num_of_Z amount)
                                (ToNumber (feeConfig?."value" <||> VZ 0)))
                          (Fin 100))
                    (Fin 100)))
           (Fin 100) in
    VNum (Math_max calculatedFee (ToNumber (feeConfig?."min" <||> VZ 0)))
  else VZ 0.

(** [for (let amount = 50; amount <= 1000; amount += 50)]. *)
Fixpoint fee_table_loop (fuel : nat) (amount : Z) (feeStructure : value)
  (table : list (string * value)) : list (string * value) :=
  match fuel with
  | O => table
  | S fuel' =>
      if (amount <=? 1000)%Z then
        let depositFee := calculateFee amount feeStructure?."deposit" in
        let withdrawFee := calculateFee amount feeStructure?."withdraw" in
        fee_table_loop fuel' (amount + 50) feeStructure
          (obj_set table (Z_toString amount)
             (VObj [("withdraw", withdrawFee); ("deposit", depositFee)]))
      else table
  end.

Definition fee_table (feeStructure : value) : value :=
  VObj (fee_table_loop 21 50 feeStructure []).

Definition cacheKey (feeStructure : value) : value :=
  VObj [("deposit", feeStructure?."deposit");
        ("withdraw", feeStructure?."withdraw")].

Definition generateFeeEstimationTable (feeStructure : value)
  (feeTableCache : FeeTableCache) : value * FeeTableCache :=
  match cache_get feeTableCache (cacheKey feeStructure) with
  | Some table => (table, feeTableCache)
  | None =>
      let table := fee_table feeStructure in
      (table, cache_set feeTableCache (cacheKey feeStructure) table)
  end.

Definition fee_config (config : value) : value :=
  VObj [("type", config?."type" <||> VStr "fixed");
        ("value", config?."value" <||> VZ 0);
        ("min", config?."min" <||> VZ 0)].

Definition legacy_config (legacyType legacyValue : value) (direction : string)
  : value :=
  VObj [("type", legacyType);
        ("value", legacyValue?.direction);
        ("min", legacyValue?."min" <||> VZ 0)].

Definition sanitizeFeeStructure (fee : value) : value :=
  if negb (truthy fee) then VObj [] else
  let legacyValue :=
    if truthy fee?."value" && typeof_object fee?."value"
    then fee?."value" else VNull in
  let legacyType := fee?."type" <||> VStr "fixed" in
  let sanitized := [] in
  let sanitized :=
    if truthy fee?."deposit" then
      obj_set sanitized "deposit" (fee_config fee?."deposit")
    else if truthy legacyValue && typeof_number legacyValue?."deposit" then
      obj_set sanitized "deposit" (legacy_config legacyType legacyValue "deposit")
    else sanitized in
  let sanitized :=
    if truthy fee?."withdraw" then
      obj_set sanitized "withdraw" (fee_config fee?."withdraw")
    else if truthy legacyValue && typeof_number legacyValue?."withdraw" then
      obj_set sanitized "withdraw"
        (legacy_config legacyType legacyValue "withdraw")
    else sanitized in
  let sanitized :=
    if truthy fee?."settlement" then
      let settlement := [] in
      let settlement :=
        if truthy fee?."settlement"?."normal" then
          obj_set settlement "normal" (fee_config fee?."settlement"?."normal")
        else settlement in
      let settlement :=
        if truthy fee?."settlement"?."usdt" then
          obj_set settlement "usdt" (fee_config fee?."settlement"?."usdt")
        else settlement in
      obj_set sanitized "settlement" (VObj settlement)
    else sanitized in
  VObj sanitized.

(** [{...option}]: only an object has a truthy [fee], so only an object is
    ever spread. *)
Definition spread (v : value) : list (string * value) :=
  match v with
  | VObj fs => fs
  | _ => []
  end.

Definition buildOption (providerOption gatewayOption : value)
  (feeTableCache : FeeTableCache) : value * FeeTableCache :=
  let option := providerOption <??> gatewayOption <??> VObj [] in
  if negb (truthy option?."fee") then (option, feeTableCache) else
  let sanitizedFee := sanitizeFeeStructure option?."fee" in
  let (feeEstimationTable, feeTableCache') :=
    generateFeeEstimationTable sanitizedFee feeTableCache in
  (VObj (obj_set (obj_set (spread option) "fee" sanitizedFee)
           "feeEstimationTable" feeEstimationTable),
   feeTableCache').

(** One bound of the merged limits: a [??] chain ending in a constant. *)
Definition merged_limit (gateway provider : value) (direction bound : string)
  (fallback : Z) : value :=
  gateway?."metaConfig"?."limit"?.direction?.bound
  <??> gateway?."limit"?.direction?.bound
  <??> provider?."limit"?.direction?.bound
  <??> VZ fallback.

(** One end of the merged service time: a [||] chain, so that an empty
    string counts as missing. *)
Definition merged_time (gateway provider : value) (direction field : string)
  (fallback : string) : value :=
  gateway?."metaConfig"?."operateTime"?.direction?.field
  <||> gateway?."serviceTime"?.direction?.field
  <||> provider?."operateTime"?.direction?.field
  <||> VStr fallback.

Definition mapToResponse (gateway : value) (balances : list (string * num))
  (providerMap : Map) (feeTableCache : FeeTableCache)
  : result (value * FeeTableCache) :=
  if nullish gateway then Throw TypeError else
  let provider := Map_get providerMap gateway?."provider" in
  let depositMin := merged_limit gateway provider "deposit" "min" 100 in
  let depositMax := merged_limit gateway provider "deposit" "max" 1000000 in
  let withdrawMin := merged_limit gateway provider "withdraw" "min" 100 in
  let withdrawMax := merged_limit gateway provider "withdraw" "max" 1000000 in
  let serviceTime :=
    VObj [("deposit",
           VObj [("openingTime",
                  merged_time gateway provider "deposit" "openingTime" "00:00");
                 ("closingTime",
                  merged_time gateway provider "deposit" "closingTime" "23:59")]);
          ("withdraw",
           VObj [("openingTime",
                  merged_time gateway provider "withdraw" "openingTime" "00:00");
                 ("closingTime",
                  merged_time gateway provider "withdraw" "closingTime" "23:59")])]
  in
  let (option, feeTableCache') :=
    buildOption provider?."option" gateway?."option" feeTableCache in
  let isGroup := truthy gateway?."groupId" in
  let type :=
    gateway?."type" <??> VStr (if isGroup then "group" else "individual") in
  let description :=
    gateway?."description"
    <||> VStr (if isGroup
               then "Group " ++ ToString gateway?."provider" ++ " gateway"
               else "Individual " ++ ToString gateway?."provider" ++ " gateway")
  in
  Ok (VObj
        [ ("gatewayId", gateway?."gatewayId");
          ("provider", gateway?."provider");
          ("name", gateway?."name");
          ("site", gateway?."site");
          ("status", gateway?."status");
          ("paymentMethods", gateway?."paymentMethods");
          ("min", depositMin);
          ("max", depositMax);
          ("limit",
           VObj [("deposit", VObj [("min", depositMin); ("max", depositMax)]);
                 ("withdraw", VObj [("min", withdrawMin); ("max", withdrawMax)])]);
          ("balanceLimit",
           gateway?."metaConfig"?."balanceLimit"
           <??> gateway?."balanceLimit" <??> VNull);
          ("type", type);
          ("isGroup", VBool isGroup);
          ("isInGroup", gateway?."isInGroup" <??> VBool isGroup);
          ("group",
           if truthy gateway?."groupId"
           then VObj [("groupId", gateway?."groupId");
                      ("groupName", gateway?."groupId")]
           else gateway?."group" <??> VNull);
          ("description", description);
          ("currentBalance",
           record_get balances gateway?."gatewayId"
           <??> gateway?."currentBalance" <??> VZ 0);
          ("totalBalance",
           record_get balances gateway?."gatewayId"
           <??> gateway?."totalBalance" <??> VZ 0);
          ("serviceTime", serviceTime);
          ("option", option) ],
      feeTableCache').

(** [for (const p of providers) providerMap.set(p.provider, p)]. *)
Fixpoint buildProviderMap (providers : list value) (providerMap : Map)
  : result Map :=
  match providers with
  | [] => Ok providerMap
  | p :: rest =>
      if nullish p then Throw TypeError
      else buildProviderMap rest (Map_set providerMap p?."provider" p)
  end.

Fixpoint Array_filter (keep : value -> result bool) (l : list value)
  : result (list value) :=
  match l with
  | [] => Ok []
  | x :: l' =>
      b <- keep x ;;
      rest <- Array_filter keep l' ;;
      Ok (if b then x :: rest else rest)
  end.

Fixpoint Array_map (f : value -> FeeTableCache -> result (value * FeeTableCache))
  (l : list value) (c : FeeTableCache) : result (list value * FeeTableCache) :=
  match l with
  | [] => Ok ([], c)
  | x :: l' =>
      r <- f x c ;;
      rs <- Array_map f l' (snd r) ;;
      Ok (fst r :: fst rs, snd rs)
  end.

(** The gateways that pass the gates: [gateways.filter(...)]. *)
Definition eligible (now : Clock) (batchData : BatchDataResponse)
  (providerMap : Map) : result (list value) :=
  Array_filter
    (fun gateway =>
       applyAllFilters now gateway
         (or_default (balances batchData) [])
         (or_default (errors batchData) [])
         providerMap)
    (or_default (gateways batchData) []).

Definition evaluateFilters (now : Clock) (batchData : BatchDataResponse)
  (feeTableCache : FeeTableCache) : result (list value * FeeTableCache) :=
  providerMap <- buildProviderMap (or_default (providers batchData) []) [] ;;
  filtered <- eligible now batchData providerMap ;;
  Array_map
    (fun gateway =>
       mapToResponse gateway (or_default (balances batchData) []) providerMap)
    filtered feeTableCache.

End FilterService.

(** ** The vocabulary of the properties *)

Section Vocabulary.
Context {host : Host}.

Definition providerMapOf (batchData : BatchDataResponse) : result Map :=
  buildProviderMap (or_default (providers batchData) []) [].

(** [r] is the record [mapToResponse] makes of [g]. *)
Definition projects (batchData : BatchDataResponse) (providerMap : Map)
  (g r : value) : Prop :=
  exists c1 c2,
    mapToResponse g (or_default (balances batchData) []) providerMap c1
    = Ok (r, c2).

(** The gate of a run, as a function of the gateway alone. *)
Definition passes (now : Clock) (batchData : BatchDataResponse)
  (providerMap : Map) (g : value) : result bool :=
  applyAllFilters now g (or_default (balances batchData) [])
    (or_default (errors batchData) []) providerMap.


End Vocabulary.

Inductive Subseq {A : Type} : list A -> list A -> Prop :=
| Subseq_nil : Subseq [] []
| Subseq_skip (x : A) (l1 l2 : list A) : Subseq l1 l2 -> Subseq l1 (x :: l2)
| Subseq_keep (x : A) (l1 l2 : list A) :
    Subseq l1 l2 -> Subseq (x :: l1) (x :: l2).



(** The first value of a chain that is neither [undefined] nor [null]. *)
Fixpoint first_present (chain : list value) (fallback : value) : value :=
  match chain with
  | [] => fallback
  | v :: rest => if nullish v then first_present rest fallback else v
  end.

(** The entry of the [balances] record for a gateway. *)
Definition balance_entry {host : Host} (b : BatchDataResponse) (g : value)
  : option num :=
  lookup (ToString g?."gatewayId") (or_default (balances b) []).

(** The gateway with its own balance fields overwritten. *)
Definition with_own_balances (g current total : value) : value :=
  match g with
  | VObj fs =>
      VObj (obj_set (obj_set fs "currentBalance" current) "totalBalance" total)
  | _ => g
  end.

Definition is_str (v : value) : bool :=
  match v with
  | VStr _ => true
  | _ => false
  end.

(** The minutes an operating time stands for; [NaN] when it does not read
    as [hours:minutes]. *)
Definition time_minutes {host : Host} (v : value) : num :=
  match split_numbers v with
  | Ok parts => minutes_of parts
  | Throw _ => NaN
  end.


(** [r] is [x] rounded to two decimal places, a tie going up. *)
Definition rounded_2dp (x r : Q) : Prop :=
  exists n : Z,
    r == inject_Z n / 100
    /\ x * 100 - (1 # 2) < inject_Z n
    /\ inject_Z n <= x * 100 + (1 # 2).

(** [q] is [r] floored at [m]: the larger of the two. *)
Definition floored_at (m r q : Q) : Prop :=
  r <= q /\ m <= q /\ (q == r \/ q == m).

(** What the table holds for one direction and one amount, for a
    normalised config of that direction. *)
Definition fee_matches (amount : Z) (config fee : value) : Prop :=
  forall (type : string) (v m : Q),
    config?."type" = VStr type ->
    config?."value" = VNum (Fin v) ->
    config?."min" = VNum (Fin m) ->
    (type = "fixed" -> exists q, fee = VNum (Fin q) /\ q == v)
    /\ (type = "percent" \/ type = "percentage" ->
        exists q r,
          fee = VNum (Fin q)
          /\ rounded_2dp (inject_Z amount * v / 100) r
          /\ floored_at m r q).

(** Every cached table is the table of the fee structure it is filed
    under. *)
Definition cache_ok {host : Host} (c : FeeTableCache) : Prop :=
  forall key table,
    In (key, table) c ->
    exists feeStructure,
      key = cacheKey feeStructure /\ table = fee_table feeStructure.

(** ** Sample data *)

Definition noon : Clock := {| getHours := 12; getMinutes := 0 |}.

Definition percent_fee (v : Q) : value :=
  VObj [("type", VStr "percent"); ("value", VNum (Fin v)); ("min", VZ 0)].

Definition window (opening closing : value) : value :=
  VObj [("deposit", VObj [("openingTime", opening); ("closingTime", closing)])].

Definition limits (dmin dmax wmin wmax : Z) : value :=
  VObj [("deposit", VObj [("min", VZ dmin); ("max", VZ dmax)]);
        ("withdraw", VObj [("min", VZ wmin); ("max", VZ wmax)])].

(** A raw gateway as the batch endpoint returns it. *)
Definition sample_gateway (id provider : string) (status : value)
  (extra : list (string * value)) : value :=
  VObj ([("gatewayId", VStr id); ("provider", VStr provider);
         ("name", VStr "Test Gateway"); ("site", VStr "testsite");
         ("status", status); ("groupId", VNull)] ++ extra).

Definition sample_provider (provider : string) (isActive isDisabled : value)
  (extra : list (string * value)) : value :=
  VObj ([("provider", VStr provider); ("isActive", isActive);
         ("isDisabled", isDisabled)] ++ extra).

Definition sample_limits : list (string * value) :=
  [("limit", limits 100 50000 200 50000)].

Definition sample_option : list (string * value) :=
  [("option",
    VObj [("fee", VObj [("deposit", percent_fee (3 # 2));
                        ("withdraw", percent_fee (1 # 2))])])].

Definition sample_batch : BatchDataResponse := {|
  gateways :=
    Some [ sample_gateway "gw-001" "provider-a" (VBool true)
             [("metaConfig",
               VObj [("limit",
                      VObj [("deposit",
                             VObj [("min", VZ 50); ("max", VZ 100000)])])]);
              ("providerConfig", VObj [("secretKey", VStr "SECRET_KEY")]);
              ("_id", VStr "507f1f77bcf86cd799439011")];
           sample_gateway "gw-002" "provider-b" (VBool true) [];
           sample_gateway "gw-003" "provider-a" (VBool false) [];
           sample_gateway "gw-004" "provider-c" (VBool true)
             [("currentBalance", VZ 777); ("totalBalance", VZ 888)] ];
  balances := Some [("gw-001", Fin 5000); ("gw-002", Fin 1000)];
  errors := Some [("provider-a", Fin 4); ("provider-b", Fin 5)];
  providers :=
    Some [ sample_provider "provider-a" (VBool true) (VBool false)
             (sample_limits ++ sample_option);
           sample_provider "provider-b" (VBool true) (VBool false) sample_limits;
           sample_provider "provider-c" (VBool true) (VBool false) [] ]
|}.



Definition legacy_status_batch : BatchDataResponse := {|
  gateways := Some [ sample_gateway "gw-001" "provider-a" (VStr "active") [] ];
  balances := Some [("gw-001", Fin 1000)];
  errors := Some [];
  providers :=
    Some [ sample_provider "provider-a" (VBool true) (VBool false) sample_limits ]
|}.

(** A provider entry that is listed but carries no flags yet. *)
Definition unset_flags_batch : BatchDataResponse := {|
  gateways := Some [ sample_gateway "15ppb_chypay" "chypay" (VBool true) [] ];
  balances := Some [("15ppb_chypay", Fin 20000)];
  errors := Some [("chypay", Fin 0)];
  providers :=
    Some [ sample_provider "chypay" VNull VNull
             (("state", VNull) :: sample_limits ++ sample_option) ]
|}.




Definition sample_out : list value :=
  Eval vm_compute in
    match evaluateFilters noon sample_batch [] with
    | Ok (out, _) => out
    | Throw _ => []
    end.

Definition sample_cache : FeeTableCache :=
  Eval vm_compute in
    match evaluateFilters noon sample_batch [] with
    | Ok (_, c) => c
    | Throw _ => []
    end.

Definition sample_providerMap : Map :=
  Eval vm_compute in
    match providerMapOf sample_batch with
    | Ok m => m
    | Throw _ => []
    end.

Definition sample_first : value :=
  Eval vm_compute in nth 0 (or_default (gateways sample_batch) []) VUndef.



(** ** Further vocabulary *)

(** The last entry of the provider list that names [name]. *)
Definition last_named (providers : list value) (name : string) : value :=
  fold_left (fun found p => if is_string p?."provider" name then p else found)
    providers VUndef.

(** The snapshot with another [balances] record. *)
Definition with_balances (b : BatchDataResponse)
  (bal : option (list (string * num))) : BatchDataResponse :=
  {| gateways := gateways b; balances := bal; errors := errors b;
     providers := providers b |}.

(** The snapshot with another list of gateways. *)
Definition with_gateways (b : BatchDataResponse) (gs : list value)
  : BatchDataResponse :=
  {| gateways := Some gs; balances := balances b; errors := errors b;
     providers := providers b |}.

(** Filter 5, which [applyAllFilters] no longer calls:
    [balance > minLimit]. *)
Definition checkBalanceLimit {host : Host} (gateway : value)
  (balances : list (string * num)) (providerMap : Map) : result bool :=
  if nullish gateway then Throw TypeError else
  let balance := record_get balances gateway?."gatewayId" <||> VZ 0 in
  let provider := Map_get providerMap gateway?."provider" in
  let minLimit :=
    gateway?."metaConfig"?."limit"?."deposit"?."min"
    <??> gateway?."min"
    <??> provider?."limit"?."deposit"?."min"
    <??> VZ 0 in
  Ok (nlt (ToNumber minLimit) (ToNumber balance)).

(** Two entries for one provider, the later one switched off, and a gateway
    whose balance is below its minimum. *)
Definition duplicate_provider_batch : BatchDataResponse := {|
  gateways :=
    Some [ sample_gateway "gw-001" "provider-a" (VBool true) [];
           sample_gateway "gw-002" "provider-b" (VBool true) [("min", VZ 500)] ];
  balances := Some [("gw-002", Fin 50)];
  errors := Some [];
  providers :=
    Some [ sample_provider "provider-a" (VBool true) (VBool false) [];
           sample_provider "provider-b" (VBool true) (VBool false) [];
           sample_provider "provider-a" (VBool false) (VBool false) [] ]
|}.

Definition duplicate_providerMap : Map :=
  Eval vm_compute in
    match providerMapOf duplicate_provider_batch with
    | Ok m => m
    | Throw _ => []
    end.

(** The gateways of the sample with no provider list at all. *)
Definition no_provider_batch : BatchDataResponse := {|
  gateways := gateways sample_batch;
  balances := balances sample_batch;
  errors := errors sample_batch;
  providers := None
|}.

(** A gateway whose own opening time is blank, under a provider that opens
    at 08:00 and closes at 22:00. *)
Definition blank_time_batch : BatchDataResponse := {|
  gateways :=
    Some [ sample_gateway "gw-001" "provider-a" (VBool true)
             [("metaConfig",
               VObj [("operateTime", window (VStr "") (VStr "21:00"))])];
           sample_gateway "gw-002" "provider-a" (VBool true) [] ];
  balances := Some [];
  errors := Some [];
  providers :=
    Some [ sample_provider "provider-a" (VBool true) (VBool false)
             [("operateTime", window (VStr "08:00") (VStr "22:00"))] ]
|}.

Definition blank_time_providerMap : Map :=
  Eval vm_compute in
    match providerMapOf blank_time_batch with
    | Ok m => m
    | Throw _ => []
    end.

Definition blank_time_first : value :=
  Eval vm_compute in nth 0 (or_default (gateways blank_time_batch) []) VUndef.

Definition blank_time_second : value :=
  Eval vm_compute in nth 1 (or_default (gateways blank_time_batch) []) VUndef.

Definition midnight : Clock := {| getHours := 0; getMinutes := 0 |}.

(** The minutes of the day the clock shows. *)
Definition clock_minutes (now : Clock) : Q :=
  inject_Z (getHours now * 60 + getMinutes now).

(** The amounts of the fee table. *)
Definition fee_amounts : list Z :=
  map (fun i => (50 * Z.of_nat i)%Z) (seq 1 20).

(** The row of the fee table for one amount. *)
Definition fee_row {host : Host} (feeStructure : value) (amount : Z)
  : string * value :=
  (Z_toString amount,
   VObj [("withdraw", calculateFee amount feeStructure?."withdraw");
         ("deposit", calculateFee amount feeStructure?."deposit")]).

(** [config] is an object of exactly [type], [value] and [min], its type
    set. *)
Definition normalised (config : value) : Prop :=
  exists t v m,
    config = VObj [("type", t); ("value", v); ("min", m)]
    /\ truthy t = true
    /\ v <> VUndef /\ m <> VUndef.

(** A fee in the legacy shape, with stray properties beside it. *)
Definition legacy_fee : value :=
  VObj [("type", VStr "percent");
        ("value", VObj [("deposit", VNum (Fin (3 # 2)));
                        ("withdraw", VNum (Fin (1 # 2)));
                        ("min", VZ 1)]);
        ("apiKey", VStr "API_KEY")].

(** A fee in the nested shape, with stray properties and no types. *)
Definition nested_fee : value :=
  VObj [("deposit", VObj [("value", VZ 10); ("secret", VStr "x")]);
        ("settlement", VObj [("usdt", VObj [("type", VStr "percent")])]);
        ("apiKey", VStr "API_KEY")].

(** A provider whose [option] has no fee, over a gateway that brings one. *)
Definition feeless_provider_batch : BatchDataResponse := {|
  gateways :=
    Some [ sample_gateway "gw-001" "provider-a" (VBool true) sample_option ];
  balances := Some [];
  errors := Some [];
  providers :=
    Some [ sample_provider "provider-a" (VBool true) (VBool false)
             [("option", VObj [("channel", VStr "QR")])] ]
|}.

(** A snapshot with a [null] among its gateways. *)
Definition null_gateway_batch : BatchDataResponse := {|
  gateways :=
    Some [ sample_gateway "gw-001" "provider-a" (VBool true) []; VNull ];
  balances := Some [];
  errors := Some [];
  providers := Some [ sample_provider "provider-a" (VBool true) (VBool false) [] ]
|}.

(** One gateway of a group and one on its own, neither with a description. *)
Definition group_batch : BatchDataResponse := {|
  gateways :=
    Some [ sample_gateway "gw-individual" "provider-a" (VBool true) [];
           VObj [("gatewayId", VStr "gw-grouped"); ("provider", VStr "provider-b");
                 ("status", VBool true); ("groupId", VStr "grp-001")] ];
  balances := Some [];
  errors := Some [];
  providers :=
    Some [ sample_provider "provider-a" (VBool true) (VBool false) [];
           sample_provider "provider-b" (VBool true) (VBool false) [] ]
|}.

(** ** The served lists ([src/services/cache.ts], [src/worker.ts],
    [src/api.ts])

    Redis is a store of strings under string keys, each with the seconds it
    still has to live, if it expires at all; the connection is taken to
    hold.  [JSON.stringify] and [JSON.parse] are the host's; [data] is an
    object wherever the code calls [set]. *)

Class Json : Type := {
  JSON_stringify : value -> string;
  JSON_parse : string -> option value;   (* [None]: a [SyntaxError] *)
  JSON_parse_empty : JSON_parse "" = None
}.

Record RedisEntry : Type := {
  payload : string;
  expiry : option Z
}.

Definition Redis : Type := list (string * RedisEntry).

Fixpoint assoc_set {A : Type} (l : list (string * A)) (k : string) (a : A)
  : list (string * A) :=
  match l with
  | [] => [(k, a)]
  | (k', a') :: l' =>
      if String.eqb k' k then (k', a) :: l' else (k', a') :: assoc_set l' k a
  end.

(** [GET key]. *)
Definition redis_get (r : Redis) (key : string) : option string :=
  option_map payload (lookup key r).

(** [SETEX key seconds value]: an error when [seconds] is not positive. *)
Definition redis_setex (r : Redis) (key : string) (seconds : Z)
  (value : string) : option Redis :=
  if (0 <? seconds)%Z
  then Some (assoc_set r key {| payload := value; expiry := Some seconds |})
  else None.

(** [SET key value]. *)
Definition redis_set (r : Redis) (key value : string) : Redis :=
  assoc_set r key {| payload := value; expiry := None |}.

(** The store [seconds] later. *)
Fixpoint redis_elapse (seconds : Z) (r : Redis) : Redis :=
  match r with
  | [] => []
  | (k, e) :: r' =>
      match expiry e with
      | None => (k, e) :: redis_elapse seconds r'
      | Some t =>
          if (seconds <? t)%Z
          then (k, {| payload := payload e; expiry := Some (t - seconds)%Z |})
               :: redis_elapse seconds r'
          else redis_elapse seconds r'
      end
  end.

(** An entry lives on as long as it has no expiry, or one that lies ahead. *)
Definition alive (seconds : Z) (e : RedisEntry) : bool :=
  match expiry e with
  | None => true
  | Some t => (seconds <? t)%Z
  end.

(** [config.cache]. *)
Record CacheConfig : Type := {
  primaryTtl : Z;
  staleTtl : Z
}.

Definition getPrimaryKey (site : string) : string :=
  "gateway-list:" ++ site ++ ":primary".

Definition getStaleKey (site : string) : string :=
  "gateway-list:" ++ site ++ ":stale".

Definition lastUpdateKey (site : string) : string :=
  "gateway-list:" ++ site ++ ":last-update".

Section Serving.
Context {host : Host} {json : Json}.

(** [JSON.parse(text)] inside the [try] of [get]: [null] when it throws. *)
Definition parse_or_null (text : string) : value :=
  match JSON_parse text with
  | Some v => v
  | None => VNull
  end.

(** [CacheService.get]. *)
Definition CacheService_get (r : Redis) (site : string) : value :=
  match redis_get r (getPrimaryKey site) with
  | Some (String ch primary) => parse_or_null (String ch primary)
  | _ =>
      match redis_get r (getStaleKey site) with
      | Some (String ch stale) => parse_or_null (String ch stale)
      | _ => VNull
      end
  end.

(** [CacheService.set]: the store it leaves, and whether it returned
    ([true]) or threw ([false]). *)
Definition CacheService_set (config : CacheConfig) (r : Redis) (site : string)
  (data : value) : Redis * bool :=
  let serialized := JSON_stringify data in
  match redis_setex r (getPrimaryKey site) (primaryTtl config) serialized with
  | None => (r, false)
  | Some r1 =>
      match redis_setex r1 (getStaleKey site) (staleTtl config) serialized with
      | None => (r1, false)
      | Some r2 => (r2, true)
      end
  end.

(** [CacheService.setLastUpdate], at [Date.now() = nowMs]. *)
Definition CacheService_setLastUpdate (r : Redis) (site : string) (nowMs : Z)
  : Redis :=
  redis_set r (lastUpdateKey site) (Z_toString nowMs).

(** The worker holds the store and the filter with its fee table cache. *)
Record Worker : Type := {
  worker_redis : Redis;
  worker_filter : FeeTableCache
}.

(** [cacheData] of [processSite]. *)
Definition cacheData (batchData : BatchDataResponse)
  (filteredGateways : list value) (timestamp site : string) : value :=
  VObj [("gateways", VArr filteredGateways);
        ("timestamp", VStr timestamp);
        ("site", VStr site);
        ("stats",
         VObj [("total",
                VZ (Z.of_nat (List.length (or_default (gateways batchData) []))));
               ("filtered", VZ (Z.of_nat (List.length filteredGateways)));
               ("errorLimit", VZ 5)])].

(** [GatewayListWorker.processSite]: [fetched] is what [fetchBatchData]
    resolved to, [None] when it rejected; [timestamp] is
    [new Date().toISOString()].  Every failure is caught and logged. *)
Definition processSite (config : CacheConfig) (now : Clock)
  (timestamp : string) (nowMs : Z) (fetched : option BatchDataResponse)
  (site : string) (w : Worker) : Worker :=
  match fetched with
  | None => w
  | Some batchData =>
      match evaluateFilters now batchData (worker_filter w) with
      | Throw _ => w
      | Ok (filteredGateways, filter') =>
          let data := cacheData batchData filteredGateways timestamp site in
          match CacheService_set config (worker_redis w) site data with
          | (r, false) => {| worker_redis := r; worker_filter := filter' |}
          | (r, true) =>
              {| worker_redis := CacheService_setLastUpdate r site nowMs;
                 worker_filter := filter' |}
          end
      end
  end.

(** What [POST /v3/gateway] answers: a status with a JSON body, or the 500
    of the [catch], whose body carries the host's error message. *)
Inductive Reply : Type :=
| Replied (status : Z) (body : value)
| InternalServerError.

(** The handler of [POST /v3/gateway], on the parsed request body. *)
Definition v3_gateway (r : Redis) (body : value) : Reply :=
  if nullish body then InternalServerError else
  let site := body?."site" in
  match site with
  | VStr (String ch name) =>
      let cachedData := CacheService_get r (String ch name) in
      if negb (truthy cachedData) then
        Replied 503
          (VObj [("success", VBool false);
                 ("error",
                  VStr "Gateway list not available. Worker may be initializing.");
                 ("code", VStr "CACHE_MISS")])
      else
        Replied 200
          (VObj [("success", VBool true);
                 ("data",
                  VObj [("gateways", cachedData?."gateways" <||> VArr []);
                        ("cachedAt", cachedData?."timestamp" <||> VNull);
                        ("site", site)])])
  | _ =>
      Replied 400
        (VObj [("success", VBool false);
               ("error", VStr "Missing or invalid site parameter")])
  end.

End Serving.

(** A JSON for the examples: it writes and reads [null], booleans,
    decimal numbers, strings (escaping the quote and the backslash), arrays
    and objects.  A number is written with all its decimals when it has at
    most seventeen, which the numbers of the examples do. *)
Definition json_quote : ascii := ascii_of_nat 34.

Definition json_backslash : ascii := ascii_of_nat 92.

Fixpoint json_escape (s : string) : string :=
  match s with
  | EmptyString => EmptyString
  | String ch s' =>
      if (Ascii.eqb ch json_quote || Ascii.eqb ch json_backslash)%bool
      then String json_backslash (String ch (json_escape s'))
      else String ch (json_escape s')
  end.

Definition json_string (s : string) : string :=
  String json_quote (json_escape s ++ String json_quote "").

Fixpoint json_decimals (places : nat) (r d : Z) : string :=
  match places with
  | O => ""
  | S places' =>
      if (r =? 0)%Z then ""
      else Z_toString (10 * r / d) ++ json_decimals places' ((10 * r) mod d) d
  end.

Definition json_number (q : Q) : string :=
  let d := Z.pos (Qden q) in
  let a := Z.abs (Qnum q) in
  (if (Qnum q <? 0)%Z then "-" else "")
  ++ Z_toString (a / d)
  ++ (if (a mod d =? 0)%Z then "" else "." ++ json_decimals 17 (a mod d) d).

Fixpoint example_stringify (v : value) : string :=
  match v with
  | VUndef | VNull | VNum NaN => "null"
  | VBool true => "true"
  | VBool false => "false"
  | VNum (Fin q) => json_number q
  | VStr s => json_string s
  | VArr xs => "[" ++ string_join "," (map example_stringify xs) ++ "]"
  | VObj fs =>
      "{" ++ string_join ","
               (flat_map
                  (fun kv : string * value =>
                     match snd kv with
                     | VUndef => []
                     | _ =>
                         [(json_string (fst kv) ++ ":"
                             ++ example_stringify (snd kv))%string]
                     end) fs)
          ++ "}"
  end.

Fixpoint read_json_string (s acc : string) : option (string * string) :=
  match s with
  | EmptyString => None
  | String ch s' =>
      if Ascii.eqb ch json_quote then Some (string_rev acc, s')
      else if Ascii.eqb ch json_backslash then
        match s' with
        | String d s'' => read_json_string s'' (String d acc)
        | EmptyString => None
        end
      else read_json_string s' (String ch acc)
  end.

Fixpoint read_json_digits (s : string) (acc : Z) (scale : positive)
  : Z * positive * string :=
  match s with
  | EmptyString => (acc, scale, s)
  | String ch s' =>
      match digit_of ch with
      | Some d => read_json_digits s' (10 * acc + d)%Z (10 * scale)%positive
      | None => (acc, scale, s)
      end
  end.

Definition starts_with_digit (s : string) : bool :=
  match s with
  | String ch _ => match digit_of ch with Some _ => true | None => false end
  | EmptyString => false
  end.

Definition read_json_unsigned (s : string) : option (Q * string) :=
  if starts_with_digit s then
    match read_json_digits s 0 1 with
    | (whole, _, String "." rest) =>
        if starts_with_digit rest then
          match read_json_digits rest 0 1 with
          | (part, scale, rest') =>
              Some (Qred (inject_Z whole + (part # scale))%Q, rest')
          end
        else None
    | (whole, _, rest) => Some (inject_Z whole, rest)
    end
  else None.

Definition read_json_number (s : string) : option (value * string) :=
  match s with
  | String "-" s' =>
      match read_json_unsigned s' with
      | Some (q, rest) => Some (VNum (Fin (Qred (- q))), rest)
      | None => None
      end
  | _ =>
      match read_json_unsigned s with
      | Some (q, rest) => Some (VNum (Fin (Qred q)), rest)
      | None => None
      end
  end.

Fixpoint read_json_value (fuel : nat) (s : string) : option (value * string) :=
  match fuel with
  | O => None
  | S fuel' =>
      match trim_left s with
      | String "n" (String "u" (String "l" (String "l" rest))) =>
          Some (VNull, rest)
      | String "t" (String "r" (String "u" (String "e" rest))) =>
          Some (VBool true, rest)
      | String "f" (String "a" (String "l" (String "s" (String "e" rest)))) =>
          Some (VBool false, rest)
      | String "[" rest => read_json_elements fuel' (trim_left rest) []
      | String "{" rest => read_json_members fuel' (trim_left rest) []
      | String ch rest =>
          if Ascii.eqb ch json_quote then
            match read_json_string rest "" with
            | Some (str, rest') => Some (VStr str, rest')
            | None => None
            end
          else read_json_number (String ch rest)
      | EmptyString => None
      end
  end
with read_json_elements (fuel : nat) (s : string) (acc : list value)
  : option (value * string) :=
  match fuel with
  | O => None
  | S fuel' =>
      match s, acc with
      | String "]" rest, [] => Some (VArr [], rest)
      | _, _ =>
          match read_json_value fuel' s with
          | Some (v, rest) =>
              match trim_left rest with
              | String "," rest' =>
                  read_json_elements fuel' (trim_left rest') (v :: acc)
              | String "]" rest' => Some (VArr (rev (v :: acc)), rest')
              | _ => None
              end
          | None => None
          end
      end
  end
with read_json_members (fuel : nat) (s : string)
  (acc : list (string * value)) : option (value * string) :=
  match fuel with
  | O => None
  | S fuel' =>
      match s, acc with
      | String "}" rest, [] => Some (VObj [], rest)
      | String ch rest, _ =>
          if Ascii.eqb ch json_quote then
            match read_json_string rest "" with
            | Some (key, rest1) =>
                match trim_left rest1 with
                | String ":" rest2 =>
                    match read_json_value fuel' rest2 with
                    | Some (v, rest3) =>
                        match trim_left rest3 with
                        | String "," rest4 =>
                            read_json_members fuel' (trim_left rest4)
                              (obj_set acc key v)
                        | String "}" rest4 =>
                            Some (VObj (obj_set acc key v), rest4)
                        | _ => None
                        end
                    | None => None
                    end
                | _ => None
                end
            | None => None
            end
          else None
      | EmptyString, _ => None
      end
  end.

Definition example_parse (s : string) : option value :=
  match read_json_value (4 * String.length s + 4) s with
  | Some (v, rest) =>
      match trim_left rest with
      | EmptyString => Some v
      | _ => None
      end
  | None => None
  end.

#[export] Instance exampleJson : Json := {|
  JSON_stringify := example_stringify;
  JSON_parse := example_parse;
  JSON_parse_empty := eq_refl
|}.

Definition example_config : CacheConfig :=
  {| primaryTtl := 30; staleTtl := 3600 |}.

Definition fresh_worker : Worker :=
  {| worker_redis := []; worker_filter := [] |}.

(** ** The vocabulary of the served lists *)

(** What [processSite] is about to store: nothing when the fetch failed or
    the run raised. *)
Definition fresh_data {host : Host} (now : Clock) (timestamp : string)
  (fetched : option BatchDataResponse) (site : string) (c : FeeTableCache)
  : option value :=
  match fetched with
  | None => None
  | Some batchData =>
      match evaluateFilters now batchData c with
      | Throw _ => None
      | Ok (filteredGateways, _) =>
          Some (cacheData batchData filteredGateways timestamp site)
      end
  end.

(** What [GET key] answers after [set] and [setLastUpdate] for [site], where
    it answered [old] before. *)
Definition written (config : CacheConfig) (site serialized : string)
  (nowMs : Z) (key : string) (old : option string) : option string :=
  if (0 <? primaryTtl config)%Z then
    if (0 <? staleTtl config)%Z then
      if String.eqb (lastUpdateKey site) key then Some (Z_toString nowMs)
      else if String.eqb (getStaleKey site) key then Some serialized
      else if String.eqb (getPrimaryKey site) key then Some serialized
      else old
    else if String.eqb (getPrimaryKey site) key then Some serialized
    else old
  else old.

Definition sample_stamp : string := "2026-01-01T12:00:00.000Z".

Definition sample_nowMs : Z := 1767268800000.

(** The fields of the stored list of the sample, read back. *)
Definition sample_cached_fields : list (string * value) :=
  Eval vm_compute in
    match example_parse
            (example_stringify
               (cacheData sample_batch sample_out sample_stamp "alpha")) with
    | Some (VObj fields) => fields
    | _ => []
    end.

Definition sample_served : value :=
  Eval vm_compute in (VObj sample_cached_fields)?."gateways".

(** A second snapshot, for another site. *)
Definition second_batch : BatchDataResponse := {|
  gateways := Some [ sample_gateway "gw-101" "provider-a" (VBool true) [] ];
  balances := Some [];
  errors := Some [];
  providers := Some [ sample_provider "provider-a" (VBool true) (VBool false) [] ]
|}.

(** * Properties *)

(** ** The shape of a run *)

Lemma Subseq_length {A : Type} (l1 l2 : list A) :
  Subseq l1 l2 -> (List.length l1 <= List.length l2)%nat.
Proof.
  induction 1; simpl; lia.
Qed.

Lemma rbind_ok {A B : Type} (r : result A) (k : A -> result B) (b : B) :
  rbind r k = Ok b -> exists a, r = Ok a /\ k a = Ok b.
Proof.
  destruct r as [a | e]; simpl; intros E; [eauto | discriminate].
Qed.

Ltac inv_bind H :=
  let a := fresh "a" in
  let Ha := fresh "Ha" in
  apply rbind_ok in H; destruct H as (a & Ha & H).

Section Runs.
Context {host : Host}.

Lemma Array_filter_spec (keep : value -> result bool) (l kept : list value) :
  Array_filter keep l = Ok kept ->
  Subseq kept l
  /\ (forall g, In g kept <-> In g l /\ keep g = Ok true)
  /\ (forall g, In g l -> exists b, keep g = Ok b).
Proof.
  revert kept; induction l as [| x l IH]; simpl; intros kept E.
  - injection E as <-. split; [constructor | split].
    + intros g; simpl; tauto.
    + intros g [].
  - inv_bind E. inv_bind E. injection E as <-.
    destruct (IH _ Ha0) as (Hs & Hin & Hall).
    split; [destruct a; constructor; exact Hs | split].
    + intros g; specialize (Hin g). destruct a; simpl; split.
      * intros [-> | Hg]; [split; [now left | exact Ha] |].
        apply Hin in Hg. split; [right |]; apply Hg.
      * intros [[-> | Hg] Hk]; [now left | right; apply Hin; now split].
      * intros Hg. apply Hin in Hg. split; [right |]; apply Hg.
      * intros [[-> | Hg] Hk]; [congruence | apply Hin; now split].
    + intros g [-> | Hg]; [eauto | now apply Hall].
Qed.


Lemma Array_map_spec
  (f : value -> FeeTableCache -> result (value * FeeTableCache))
  (l out : list value) (c c' : FeeTableCache) :
  Array_map f l c = Ok (out, c') ->
  Forall2 (fun g r => exists c1 c2, f g c1 = Ok (r, c2)) l out.
Proof.
  revert out c; induction l as [| x l IH]; simpl; intros out c E.
  - injection E as <- <-. constructor.
  - inv_bind E. inv_bind E. injection E as <- <-.
    destruct a as [r c1], a0 as [rs c2]; simpl in *.
    constructor; [eauto | eapply IH; eassumption].
Qed.

(** A run that returns is the projection of the gateways that pass. *)
Lemma evaluateFilters_inv (now : Clock) (b : BatchDataResponse)
  (c c' : FeeTableCache) (out : list value) :
  evaluateFilters now b c = Ok (out, c') ->
  exists providerMap kept,
    providerMapOf b = Ok providerMap
    /\ eligible now b providerMap = Ok kept
    /\ Forall2 (projects b providerMap) kept out.
Proof.
  unfold evaluateFilters; intros E.
  inv_bind E. inv_bind E.
  exists a, a0. repeat split; try assumption.
  eapply Array_map_spec; eassumption.
Qed.

Lemma eligible_spec (now : Clock) (b : BatchDataResponse) (providerMap : Map)
  (kept : list value) :
  eligible now b providerMap = Ok kept ->
  Subseq kept (or_default (gateways b) [])
  /\ (forall g, In g kept <->
                In g (or_default (gateways b) [])
                /\ passes now b providerMap g = Ok true).
Proof.
  intros E; apply Array_filter_spec in E.
  destruct E as (Hs & Hin & _); split; assumption.
Qed.

End Runs.

Lemma sample_run : evaluateFilters noon sample_batch [] = Ok (sample_out, sample_cache).
Proof. vm_compute. reflexivity. Qed.

(** ** The projection *)

Section Projection.
Context {host : Host}.

(** The record [mapToResponse] returns, field by field. *)
Lemma mapToResponse_inv (g : value) (bal : list (string * num)) (pm : Map)
  (c c' : FeeTableCache) (r : value) :
  mapToResponse g bal pm c = Ok (r, c') ->
  nullish g = false
  /\ exists fs,
      r = VObj fs
      /\ map fst fs = response_fields
      /\ r?."gatewayId" = g?."gatewayId"
      /\ r?."option"
         = fst (buildOption (Map_get pm g?."provider")?."option" g?."option" c)
      /\ r?."currentBalance"
         = (record_get bal g?."gatewayId" <??> g?."currentBalance" <??> VZ 0)
      /\ r?."totalBalance"
         = (record_get bal g?."gatewayId" <??> g?."totalBalance" <??> VZ 0)
      /\ r?."limit"
         = (let p := Map_get pm g?."provider" in
            VObj [("deposit",
                   VObj [("min", merged_limit g p "deposit" "min" 100);
                         ("max", merged_limit g p "deposit" "max" 1000000)]);
                  ("withdraw",
                   VObj [("min", merged_limit g p "withdraw" "min" 100);
                         ("max", merged_limit g p "withdraw" "max" 1000000)])])
      /\ r?."min" = merged_limit g (Map_get pm g?."provider") "deposit" "min" 100
      /\ r?."max"
         = merged_limit g (Map_get pm g?."provider") "deposit" "max" 1000000.
Proof.
  unfold mapToResponse; intros E.
  destruct (nullish g); [discriminate |].
  destruct (buildOption _ _ c) as [opt c2].
  injection E as <- <-.
  split; [reflexivity |].
  eexists; split; [reflexivity |].
  repeat split.
Qed.

Lemma Forall2_impl {A B : Type} (P Q : A -> B -> Prop) (l : list A)
  (l' : list B) :
  (forall a b, In a l -> P a b -> Q a b) -> Forall2 P l l' -> Forall2 Q l l'.
Proof.
  intros HPQ H; induction H; constructor.
  - apply HPQ; [now left | assumption].
  - apply IHForall2. intros a b Ha; apply HPQ; now right.
Qed.

Lemma Forall2_length_eq {A B : Type} (P : A -> B -> Prop) (l : list A)
  (l' : list B) :
  Forall2 P l l' -> List.length l = List.length l'.
Proof.
  induction 1; simpl; congruence.
Qed.

Lemma Forall2_right {A B : Type} (P : A -> B -> Prop) (Q : B -> Prop)
  (l : list A) (l' : list B) :
  (forall a b, P a b -> Q b) -> Forall2 P l l' -> Forall Q l'.
Proof.
  intros HPQ H; induction H; constructor; eauto.
Qed.

End Projection.

(** ** Order and length of the result *)

(** C4.  A run that returns hands back at most as many records as the
    snapshot has gateways, and the records are, in order, the projections of
    a sub-sequence of the gateways: nothing is sorted or moved. *)
Theorem evaluateFilters_stable_subsequence {host : Host} (now : Clock)
  (b : BatchDataResponse) (c c' : FeeTableCache) (out : list value) :
  evaluateFilters now b c = Ok (out, c') ->
  (List.length out <= List.length (or_default (gateways b) []))%nat
  /\ exists providerMap kept,
       providerMapOf b = Ok providerMap
       /\ Subseq kept (or_default (gateways b) [])
       /\ Forall2 (projects b providerMap) kept out
       /\ map (fun r => r?."gatewayId") out
          = map (fun g => g?."gatewayId") kept.
Proof.
  intros E. destruct (evaluateFilters_inv _ _ _ _ _ E) as (pm & kept & Hpm & Hk & Hout).
  destruct (eligible_spec _ _ _ _ Hk) as (Hsub & _).
  split.
  - rewrite <- (Forall2_length_eq _ _ _ Hout). now apply Subseq_length.
  - exists pm, kept. repeat split; try assumption.
    clear - Hout. induction Hout as [| g r kept out Hgr _ IH]; [reflexivity |].
    simpl. rewrite IH. f_equal.
    destruct Hgr as (c1 & c2 & Hgr).
    apply mapToResponse_inv in Hgr. destruct Hgr as (_ & fs & _ & _ & Hid & _).
    exact Hid.
Qed.

Lemma evaluateFilters_stable_subsequence_witness :
  evaluateFilters noon sample_batch [] = Ok (sample_out, sample_cache)
  /\ (List.length sample_out <= 4)%nat
  /\ map (fun r => r?."gatewayId") sample_out = [VStr "gw-001"; VStr "gw-004"].
Proof.
  split; [exact sample_run |].
  destruct (evaluateFilters_stable_subsequence noon sample_batch [] sample_cache
              sample_out sample_run) as (Hlen & _).
  split; [exact Hlen | reflexivity].
Defined.

(** ** The whitelist *)




(** ** Limits *)

Lemma merged_limit_first_present (g p : value) (direction bound : string)
  (fallback : Z) :
  merged_limit g p direction bound fallback
  = first_present
      [ g?."metaConfig"?."limit"?.direction?.bound;
        g?."limit"?.direction?.bound;
        p?."limit"?.direction?.bound ]
      (VZ fallback).
Proof.
  unfold merged_limit; simpl first_present.
  generalize (g?."metaConfig"?."limit"?.direction?.bound)
    (g?."limit"?.direction?.bound) (p?."limit"?.direction?.bound).
  intros x y z; unfold coalesce.
  destruct (nullish x) eqn:Ex; destruct (nullish y) eqn:Ey;
    destruct (nullish z) eqn:Ez;
    repeat (rewrite ?Ex, ?Ey, ?Ez); reflexivity.
Qed.

(** C8.  In every record of the result each of the four bounds is, on its
    own, the first present value of the gateway's [metaConfig.limit], the
    gateway's [limit], the provider's [limit] and the constant (100 for a
    minimum, 1000000 for a maximum). *)
Theorem evaluateFilters_merged_limits {host : Host} (now : Clock)
  (b : BatchDataResponse) (c c' : FeeTableCache) (out : list value) :
  evaluateFilters now b c = Ok (out, c') ->
  exists providerMap kept,
    providerMapOf b = Ok providerMap
    /\ eligible now b providerMap = Ok kept
    /\ Forall2
         (fun g r =>
            let provider := Map_get providerMap g?."provider" in
            let chain direction bound :=
              [ g?."metaConfig"?."limit"?.direction?.bound;
                g?."limit"?.direction?.bound;
                provider?."limit"?.direction?.bound ] in
            r?."limit"?."deposit"?."min"
            = first_present (chain "deposit" "min") (VZ 100)
            /\ r?."limit"?."deposit"?."max"
               = first_present (chain "deposit" "max") (VZ 1000000)
            /\ r?."limit"?."withdraw"?."min"
               = first_present (chain "withdraw" "min") (VZ 100)
            /\ r?."limit"?."withdraw"?."max"
               = first_present (chain "withdraw" "max") (VZ 1000000))
         kept out.
Proof.
  intros E. destruct (evaluateFilters_inv _ _ _ _ _ E) as (pm & kept & Hpm & Hk & Hout).
  exists pm, kept. repeat split; try assumption.
  eapply Forall2_impl; [| exact Hout].
  intros g r _ (c1 & c2 & Hgr).
  apply mapToResponse_inv in Hgr.
  destruct Hgr as (_ & fs & _ & _ & _ & _ & _ & _ & Hlimit & _).
  cbv zeta. rewrite Hlimit. cbv zeta.
  rewrite <- !merged_limit_first_present.
  repeat split.
Qed.

(** On the sample, [gw-001] takes its deposit bounds from its own
    [metaConfig] and its withdraw bounds from its provider, and [gw-004],
    whose provider has no limits, falls back to the constants. *)
Lemma evaluateFilters_merged_limits_witness :
  evaluateFilters noon sample_batch [] = Ok (sample_out, sample_cache)
  /\ map (fun r => r?."limit") sample_out
     = [limits 50 100000 200 50000; limits 100 1000000 100 1000000]
  /\ exists providerMap kept,
       providerMapOf sample_batch = Ok providerMap
       /\ eligible noon sample_batch providerMap = Ok kept.
Proof.
  split; [exact sample_run |].
  split; [vm_compute; reflexivity |].
  destruct (evaluateFilters_merged_limits noon sample_batch [] sample_cache
              sample_out sample_run) as (pm & kept & Hpm & Hk & _).
  exists pm, kept. split; assumption.
Defined.

(** ** Balances *)

Lemma lookup_obj_set_other (fs : list (string * value)) (k k' : string)
  (v : value) :
  String.eqb k k' = false -> lookup k' (obj_set fs k v) = lookup k' fs.
Proof.
  intros Hne; induction fs as [| [k0 v0] fs IH]; simpl.
  - now rewrite Hne.
  - destruct (String.eqb_spec k0 k) as [-> | Hk]; simpl.
    + now rewrite Hne.
    + now rewrite IH.
Qed.

Lemma get_with_own_balances (g current total : value) (k : string) :
  String.eqb "currentBalance" k = false ->
  String.eqb "totalBalance" k = false ->
  (with_own_balances g current total)?.k = g?.k.
Proof.
  intros H1 H2; destruct g; try reflexivity.
  simpl. now rewrite !lookup_obj_set_other.
Qed.

Lemma nullish_with_own_balances (g current total : value) :
  nullish (with_own_balances g current total) = nullish g.
Proof.
  destruct g; reflexivity.
Qed.

Ltac forget_own_balances :=
  rewrite ?nullish_with_own_balances;
  repeat match goal with
         | |- context [ (with_own_balances ?g ?c ?t)?.?k ] =>
             rewrite (get_with_own_balances g c t k eq_refl eq_refl)
         end.




(** C10.  For a record of the result whose gateway has an entry in
    [balances], both figures are that entry, hence equal; and whatever the
    gateway's own [currentBalance] and [totalBalance] are changed to, the
    gate and the record stay the same. *)
Theorem evaluateFilters_balance_entry_wins {host : Host} (now : Clock)
  (b : BatchDataResponse) (c c' : FeeTableCache) (out : list value) :
  evaluateFilters now b c = Ok (out, c') ->
  exists providerMap kept,
    providerMapOf b = Ok providerMap
    /\ eligible now b providerMap = Ok kept
    /\ Forall2
         (fun g r =>
            forall n, balance_entry b g = Some n ->
              r?."currentBalance" = r?."totalBalance"
              /\ r?."currentBalance" = VNum n
              /\ forall current total,
                   passes now b providerMap (with_own_balances g current total)
                   = passes now b providerMap g
                   /\ forall c1,
                        mapToResponse (with_own_balances g current total)
                          (or_default (balances b) []) providerMap c1
                        = mapToResponse g (or_default (balances b) [])
                            providerMap c1)
         kept out.
Proof.
  intros E. destruct (evaluateFilters_inv _ _ _ _ _ E) as (pm & kept & Hpm & Hk & Hout).
  exists pm, kept. repeat split; try assumption.
  eapply Forall2_impl; [| exact Hout].
  intros g r _ (c1 & c2 & Hgr) n Hn.
  apply mapToResponse_inv in Hgr.
  destruct Hgr as (_ & fs & _ & _ & _ & _ & Hcur & Htot & _).
  unfold balance_entry in Hn.
  assert (Hrec : forall g', g'?."gatewayId" = g?."gatewayId" ->
                   record_get (or_default (balances b) []) g'?."gatewayId"
                   = VNum n).
  { intros g' ->. unfold record_get. now rewrite Hn. }
  rewrite Hcur, Htot, (Hrec g eq_refl).
  split; [reflexivity | split; [reflexivity |]].
  intros current total; split.
  - unfold passes, applyAllFilters, checkStatus, checkTimeRange, checkProvider,
      checkErrorLimit, gate_time.
    forget_own_balances. reflexivity.
  - intros c0.
    unfold mapToResponse, merged_limit, merged_time.
    forget_own_balances.
    destruct (nullish g); [reflexivity |].
    destruct (buildOption _ _ c0) as [opt c3].
    forget_own_balances.
    rewrite (Hrec g eq_refl). reflexivity.
Qed.

Lemma evaluateFilters_balance_entry_wins_witness :
  evaluateFilters noon sample_batch [] = Ok (sample_out, sample_cache)
  /\ map (fun r => (r?."currentBalance", r?."totalBalance"))
         (firstn 1 sample_out)
     = [(VZ 5000, VZ 5000)]
  /\ exists providerMap kept,
       providerMapOf sample_batch = Ok providerMap
       /\ eligible noon sample_batch providerMap = Ok kept.
Proof.
  split; [exact sample_run |].
  split; [vm_compute; reflexivity |].
  destruct (evaluateFilters_balance_entry_wins noon sample_batch [] sample_cache
              sample_out sample_run) as (pm & kept & Hpm & Hk & _).
  exists pm, kept. split; assumption.
Defined.

(** ** The gates *)

Section Gates.
Context {host : Host}.

(** The short circuit of [applyAllFilters] hides nothing: a gateway passes
    exactly when each of the four gates returns [true]. *)
Lemma passes_true_iff (now : Clock) (b : BatchDataResponse) (pm : Map)
  (g : value) :
  passes now b pm g = Ok true <->
  checkStatus g = Ok true
  /\ checkTimeRange now g pm = Ok true
  /\ checkProvider g pm = Ok true
  /\ checkErrorLimit g (or_default (errors b) []) = Ok true.
Proof.
  unfold passes, applyAllFilters.
  destruct (checkStatus g) as [[|] | e]; simpl;
    [| split; [discriminate | intros (H & _); discriminate H] ..].
  destruct (checkTimeRange now g pm) as [[|] | e]; simpl;
    [| split; [discriminate | intros (_ & H & _); discriminate H] ..].
  destruct (checkProvider g pm) as [[|] | e]; simpl;
    [| split; [discriminate | intros (_ & _ & H & _); discriminate H] ..].
  destruct (checkErrorLimit g _) as [[|] | e]; simpl;
    [| split; [discriminate | intros (_ & _ & _ & H); discriminate H] ..].
  tauto.
Qed.

Lemma checkStatus_true_iff (g : value) :
  checkStatus g = Ok true <-> g?."status" = VBool true.
Proof.
  unfold checkStatus. destruct g; simpl; try (split; discriminate).
  destruct (lookup "status" fields) as [[| | [|] | | | |] |]; simpl;
    split; congruence.
Qed.


Lemma checkStatus_ok_nullish (g : value) (s : bool) :
  checkStatus g = Ok s -> nullish g = false.
Proof.
  unfold checkStatus. destruct (nullish g); [discriminate | reflexivity].
Qed.

End Gates.



(** ** The status gate *)

(** C3, amended.  Among the gateways that pass the time, provider and error
    gates, the run keeps exactly those whose [status] is the boolean [true];
    every other status, a string such as ["active"] and a missing status
    included, leaves the gateway out. *)
Theorem evaluateFilters_status {host : Host} (now : Clock)
  (b : BatchDataResponse) (c c' : FeeTableCache) (out : list value) :
  evaluateFilters now b c = Ok (out, c') ->
  exists providerMap kept,
    providerMapOf b = Ok providerMap
    /\ eligible now b providerMap = Ok kept
    /\ Forall2 (projects b providerMap) kept out
    /\ forall g,
         In g (or_default (gateways b) []) ->
         checkTimeRange now g providerMap = Ok true ->
         checkProvider g providerMap = Ok true ->
         checkErrorLimit g (or_default (errors b) []) = Ok true ->
         (In g kept <-> g?."status" = VBool true).
Proof.
  intros E.
  destruct (evaluateFilters_inv _ _ _ _ _ E) as (pm & kept & Hpm & Hk & Hout).
  exists pm, kept. repeat split; try assumption.
  - intros Hg. destruct (eligible_spec _ _ _ _ Hk) as (_ & Hin).
    apply Hin in Hg. destruct Hg as (_ & Hp).
    apply passes_true_iff in Hp. now apply checkStatus_true_iff.
  - intros Hs. destruct (eligible_spec _ _ _ _ Hk) as (_ & Hin).
    apply Hin. split; [assumption |].
    apply passes_true_iff. repeat split; try assumption.
    now apply checkStatus_true_iff.
Qed.

Lemma evaluateFilters_status_witness :
  evaluateFilters noon sample_batch [] = Ok (sample_out, sample_cache)
  /\ sample_first?."status" = VBool true
  /\ exists kept,
       eligible noon sample_batch sample_providerMap = Ok kept
       /\ In sample_first kept.
Proof.
  split; [exact sample_run |].
  split; [reflexivity |].
  destruct (evaluateFilters_status noon sample_batch [] sample_cache
              sample_out sample_run) as (pm & kept & Hpm & Hk & _ & Hg).
  vm_compute in Hpm. injection Hpm as <-.
  exists kept. split; [exact Hk |].
  apply (Hg sample_first); try (vm_compute; reflexivity).
  simpl; tauto.
Defined.

(** C3 as stated fails: a gateway whose status is the string ["active"]
    passes the three other gates and is left out all the same. *)
Lemma legacy_status_is_excluded :
  exists g providerMap,
    gateways legacy_status_batch = Some [g]
    /\ providerMapOf legacy_status_batch = Ok providerMap
    /\ g?."status" = VStr "active"
    /\ checkTimeRange noon g providerMap = Ok true
    /\ checkProvider g providerMap = Ok true
    /\ checkErrorLimit g (or_default (errors legacy_status_batch) []) = Ok true
    /\ evaluateFilters noon legacy_status_batch [] = Ok ([], []).
Proof.
  eexists; eexists.
  split; [reflexivity |].
  split; [vm_compute; reflexivity |].
  repeat split; vm_compute; reflexivity.
Qed.

(** ** The provider gate *)

(** C2.  The gateway below passes the status, time and error gates and its
    provider is listed with [isActive: null, isDisabled: null], yet
    [checkProvider] answers [false], on [!provider.isActive], and the result
    is empty. *)
Theorem unset_flags_are_excluded :
  exists g providerMap,
    gateways unset_flags_batch = Some [g]
    /\ providerMapOf unset_flags_batch = Ok providerMap
    /\ (Map_get providerMap g?."provider")?."provider" = VStr "chypay"
    /\ (Map_get providerMap g?."provider")?."isActive" = VNull
    /\ (Map_get providerMap g?."provider")?."isDisabled" = VNull
    /\ checkStatus g = Ok true
    /\ checkTimeRange noon g providerMap = Ok true
    /\ checkErrorLimit g (or_default (errors unset_flags_batch) []) = Ok true
    /\ checkProvider g providerMap = Ok false
    /\ evaluateFilters noon unset_flags_batch [] = Ok ([], []).
Proof.
  eexists; eexists.
  split; [reflexivity |].
  split; [vm_compute; reflexivity |].
  repeat split; vm_compute; reflexivity.
Qed.

(** ** Defective gateways *)

Section Totality.
Context {host : Host}.





Lemma mapToResponse_total (g : value) (bal : list (string * num)) (pm : Map)
  (c : FeeTableCache) :
  nullish g = false -> exists r c', mapToResponse g bal pm c = Ok (r, c').
Proof.
  intros Hg. unfold mapToResponse. rewrite Hg.
  destruct (buildOption _ _ c) as [opt c2]. eauto.
Qed.

Lemma Array_map_total
  (f : value -> FeeTableCache -> result (value * FeeTableCache))
  (l : list value) (c : FeeTableCache) :
  (forall g c0, In g l -> exists r c1, f g c0 = Ok (r, c1)) ->
  exists out c', Array_map f l c = Ok (out, c').
Proof.
  revert c; induction l as [| x l IH]; simpl; intros c Hf; [eauto |].
  destruct (Hf x c (or_introl eq_refl)) as (r & c1 & ->). simpl.
  destruct (IH c1) as (out & c' & ->); [intros g c0 Hg; apply Hf; now right |].
  simpl. eauto.
Qed.



End Totality.




(** ** The fee table *)

Lemma num_eqb_eq (a b : num) : num_eqb a b = true -> a = b.
Proof.
  destruct a as [| [x1 x2]], b as [| [y1 y2]]; simpl; try discriminate;
    [reflexivity |].
  intros E. apply andb_true_iff in E. destruct E as (E1 & E2).
  apply Z.eqb_eq in E1. apply Pos.eqb_eq in E2. now subst.
Qed.

Lemma value_eqb_eq : forall a b : value, value_eqb a b = true -> a = b.
Proof.
  fix IH 1. intros a b; destruct a, b; simpl; try discriminate; intros E.
  - reflexivity.
  - reflexivity.
  - apply Bool.eqb_prop in E. now subst.
  - apply num_eqb_eq in E. now subst.
  - apply String.eqb_eq in E. now subst.
  - f_equal. revert xs0 E.
    induction xs as [| x xs IHxs]; intros [| y ys] E; try discriminate;
      [reflexivity |].
    apply andb_true_iff in E. destruct E as (E1 & E2).
    f_equal; [apply IH; exact E1 | apply IHxs; exact E2].
  - f_equal. revert fields0 E.
    induction fields as [| [k x] fs IHfs]; intros [| [l y] gs] E;
      try discriminate; [reflexivity |].
    apply andb_true_iff in E. destruct E as (E12 & E3).
    apply andb_true_iff in E12. destruct E12 as (E1 & E2).
    apply String.eqb_eq in E1. subst l.
    f_equal; [f_equal; apply IH; exact E2 | apply IHfs; exact E3].
Qed.

Lemma cache_get_In (c : FeeTableCache) (key table : value) :
  cache_get c key = Some table -> In (key, table) c.
Proof.
  induction c as [| [k t] c IH]; simpl; [discriminate |].
  destruct (value_eqb k key) eqn:Ek.
  - intros E; injection E as ->. apply value_eqb_eq in Ek. subst k. now left.
  - intros E; right; now apply IH.
Qed.

Lemma cache_set_In (c : FeeTableCache) (key t k0 t0 : value) :
  In (k0, t0) (cache_set c key t) -> In (k0, t0) c \/ (k0 = key /\ t0 = t).
Proof.
  induction c as [| [k t'] c IH]; simpl.
  - intros [E | []]. injection E as <- <-. now right.
  - destruct (value_eqb k key) eqn:Ek; simpl.
    + intros [E | H]; [| left; now right].
      injection E as <- <-. apply value_eqb_eq in Ek. now right.
    + intros [E | H]; [left; now left |].
      destruct (IH H) as [H' | H']; [left; now right | now right].
Qed.

Section FeeTable.
Context {host : Host}.

Lemma fee_table_loop_key (fs fs' : value) (fuel : nat) (amount : Z)
  (table : list (string * value)) :
  cacheKey fs = cacheKey fs' ->
  fee_table_loop fuel amount fs table = fee_table_loop fuel amount fs' table.
Proof.
  intros E. injection E as Ed Ew.
  revert amount table; induction fuel as [| fuel IH]; simpl; intros amount table;
    [reflexivity |].
  rewrite Ed, Ew. destruct (amount <=? 1000)%Z; [apply IH | reflexivity].
Qed.

Lemma cache_ok_nil : cache_ok [].
Proof.
  intros key table [].
Qed.

(** The cache cannot be seen: a call returns the table it would compute,
    and keeps the cache sound. *)
Lemma generateFeeEstimationTable_cached (fs : value) (c : FeeTableCache) :
  cache_ok c ->
  fst (generateFeeEstimationTable fs c) = fee_table fs
  /\ cache_ok (snd (generateFeeEstimationTable fs c)).
Proof.
  intros Hc. unfold generateFeeEstimationTable.
  destruct (cache_get c (cacheKey fs)) as [table |] eqn:Eg; simpl.
  - split; [| exact Hc].
    apply cache_get_In in Eg. destruct (Hc _ _ Eg) as (fs' & Ekey & ->).
    unfold fee_table. f_equal. symmetry. now apply fee_table_loop_key.
  - split; [reflexivity |].
    intros k0 t0 Hin. apply cache_set_In in Hin.
    destruct Hin as [Hin | (-> & ->)]; [now apply Hc | eauto].
Qed.

Lemma buildOption_cache_ok (po go : value) (c : FeeTableCache) :
  cache_ok c -> cache_ok (snd (buildOption po go c)).
Proof.
  intros Hc. unfold buildOption.
  destruct (negb (truthy _)); [exact Hc |].
  pose proof (generateFeeEstimationTable_cached
                (sanitizeFeeStructure (po <??> go <??> VObj [])?."fee") c Hc)
    as (_ & Hc').
  destruct (generateFeeEstimationTable _ c) as [t c2]. exact Hc'.
Qed.

Lemma Array_map_cache_ok (bal : list (string * num)) (pm : Map)
  (l out : list value) (c c' : FeeTableCache) :
  cache_ok c ->
  Array_map (fun g => mapToResponse g bal pm) l c = Ok (out, c') ->
  cache_ok c'.
Proof.
  revert out c; induction l as [| x l IH]; simpl; intros out c Hc E.
  - injection E as <- <-. exact Hc.
  - inv_bind E. inv_bind E. injection E as <- <-.
    destruct a as [r c1], a0 as [rs c2]; simpl in *.
    apply (IH rs c1); [| exact Ha0].
    unfold mapToResponse in Ha. destruct (nullish x); [discriminate |].
    pose proof (buildOption_cache_ok (Map_get pm x?."provider")?."option"
                  x?."option" c Hc) as Hc1.
    destruct (buildOption _ _ c) as [opt c3]. injection Ha as _ <-. exact Hc1.
Qed.

(** The invariant of the service: every run keeps the cache sound. *)
Lemma evaluateFilters_cache_ok (now : Clock) (b : BatchDataResponse)
  (c c' : FeeTableCache) (out : list value) :
  cache_ok c -> evaluateFilters now b c = Ok (out, c') -> cache_ok c'.
Proof.
  unfold evaluateFilters; intros Hc E.
  inv_bind E. inv_bind E.
  eapply Array_map_cache_ok; eassumption.
Qed.


Lemma or_zero_number (q : Q) :
  exists q', ToNumber (VNum (Fin q) <||> VZ 0) = Fin q' /\ q' == q
             /\ (VNum (Fin q) <||> VZ 0) = VNum (Fin q').
Proof.
  unfold or_else; simpl. destruct (Qeq_bool q 0) eqn:E; simpl.
  - apply Qeq_bool_iff in E. exists 0.
    split; [reflexivity | split; [now symmetry | reflexivity]].
  - exists q. split; [reflexivity | split; reflexivity].
Qed.

Lemma calculateFee_matches (amount : Z) (config : value) :
  fee_matches amount config (calculateFee amount config).
Proof.
  intros type v m Ht Hv Hm.
  assert (Hc : truthy config = true).
  { destruct config; try discriminate Ht. reflexivity. }
  unfold calculateFee. rewrite Hc, Ht, Hv, Hm. simpl negb. cbv iota.
  destruct (or_zero_number v) as (v' & Hv1 & Hv2 & Hv3).
  destruct (or_zero_number m) as (m' & Hm1 & Hm2 & _).
  split.
  - intros ->. simpl. rewrite Hv3. eauto.
  - intros Hp.
    assert (Hty : is_string (VStr type) "fixed" = false
                  /\ (is_string (VStr type) "percentage"
                      || is_string (VStr type) "percent") = true).
    { destruct Hp as [-> | ->]; split; reflexivity. }
    destruct Hty as (-> & ->).
    rewrite Hv1, Hm1. simpl.
    set (y := Qred (Qred (Qred (inject_Z amount * v') / 100) * 100)).
    set (n := Qfloor (y + (1 # 2))).
    assert (Hy : y == inject_Z amount * v / 100 * 100).
    { unfold y. rewrite !Qred_correct. now rewrite Hv2. }
    exists (if Qle_bool (Qred (inject_Z n / 100)) m' then m'
            else Qred (inject_Z n / 100)), (inject_Z n / 100).
    split; [reflexivity |]. split.
    + exists n. split; [reflexivity |]. rewrite <- Hy. split.
      * pose proof (Qlt_floor (y + (1 # 2))) as Hlt. fold n in Hlt.
        rewrite inject_Z_plus in Hlt.
        apply Qplus_lt_l with (z := 1). 
        setoid_replace (y - (1 # 2) + 1) with (y + (1 # 2)) by ring.
        exact Hlt.
      * apply Qfloor_le.
    + unfold floored_at.
      destruct (Qle_bool (Qred (inject_Z n / 100)) m') eqn:El.
      * apply Qle_bool_iff in El. rewrite Qred_correct in El.
        rewrite Hm2 in *. repeat split;
          [exact El | apply Qle_refl | right; reflexivity].
      * assert (Hlt : m' < inject_Z n / 100).
        { apply Qnot_le_lt. intros H. rewrite <- (Qred_correct (_ / _)) in H.
          apply Qle_bool_iff in H. congruence. }
        rewrite Qred_correct, <- Hm2. repeat split;
          [apply Qle_refl | now apply Qlt_le_weak | left; reflexivity].
Qed.

End FeeTable.



(** * Further properties of the code *)

(** ** The provider map *)

Lemma sameValueZero_str (a : value) (n : string) :
  sameValueZero a (VStr n) = true <-> a = VStr n.
Proof.
  destruct a as [| | x | [| q] | s | xs | fs]; simpl;
    try (split; [discriminate | discriminate]).
  split; [intros E; apply String.eqb_eq in E; now subst | intros E].
  injection E as ->. apply String.eqb_refl.
Qed.

Lemma sameValueZero_str_cong (a b : value) (n : string) :
  sameValueZero a b = true ->
  sameValueZero a (VStr n) = sameValueZero b (VStr n).
Proof.
  intros E.
  destruct a as [| | x | [| q] | s | xs | fs],
           b as [| | y | [| r] | t | ys | gs];
    simpl in *; try discriminate E; try reflexivity.
  apply String.eqb_eq in E. now subst.
Qed.

Lemma Map_get_set_str (m : Map) (k v : value) (n : string) :
  Map_get (Map_set m k v) (VStr n)
  = if sameValueZero k (VStr n) then v else Map_get m (VStr n).
Proof.
  induction m as [| [k' v'] m IH]; simpl; [reflexivity |].
  destruct (sameValueZero k' k) eqn:Ek; simpl.
  - rewrite (sameValueZero_str_cong _ _ n Ek).
    destruct (sameValueZero k (VStr n)); reflexivity.
  - rewrite IH.
    destruct (sameValueZero k' (VStr n)) eqn:Ek'; [| reflexivity].
    destruct (sameValueZero k (VStr n)) eqn:Ekn; [| reflexivity].
    apply sameValueZero_str in Ek'. apply sameValueZero_str in Ekn. subst.
    simpl in Ek. rewrite String.eqb_refl in Ek. discriminate Ek.
Qed.

Lemma is_string_sameValueZero (v : value) (n : string) :
  is_string v n = sameValueZero v (VStr n).
Proof.
  destruct v as [| | x | [| q] | s | xs | fs]; reflexivity.
Qed.

Lemma buildProviderMap_get {host : Host} (ps : list value) (m pm : Map)
  (n : string) :
  buildProviderMap ps m = Ok pm ->
  Map_get pm (VStr n)
  = fold_left (fun found p => if is_string p?."provider" n then p else found)
      ps (Map_get m (VStr n)).
Proof.
  revert m; induction ps as [| p ps IH]; simpl; intros m E.
  - injection E as <-. reflexivity.
  - destruct (nullish p); [discriminate |].
    rewrite (IH _ E), Map_get_set_str, is_string_sameValueZero. reflexivity.
Qed.

(** X1.  The provider map answers a name with the last entry of the
    provider list that carries it, and with [undefined] when none does: a
    later entry for the same provider replaces the earlier one. *)
Theorem providerMap_last_entry_wins {host : Host} (b : BatchDataResponse)
  (providerMap : Map) (name : string) :
  providerMapOf b = Ok providerMap ->
  Map_get providerMap (VStr name)
  = last_named (or_default (providers b) []) name.
Proof.
  intros E. unfold providerMapOf in E.
  rewrite (buildProviderMap_get _ _ _ name E). reflexivity.
Qed.

Lemma providerMap_last_entry_wins_witness :
  providerMapOf duplicate_provider_batch = Ok duplicate_providerMap
  /\ (Map_get duplicate_providerMap (VStr "provider-a"))?."isActive"
     = VBool false
  /\ Map_get duplicate_providerMap (VStr "provider-z") = VUndef.
Proof.
  assert (E : providerMapOf duplicate_provider_batch = Ok duplicate_providerMap)
    by (vm_compute; reflexivity).
  split; [exact E |].
  rewrite !(providerMap_last_entry_wins duplicate_provider_batch _ _ E).
  split; reflexivity.
Defined.

(** ** What a returned gateway is *)

Section Returned.
Context {host : Host}.

Lemma mapToResponse_copies (g : value) (bal : list (string * num)) (pm : Map)
  (c c' : FeeTableCache) (r : value) :
  mapToResponse g bal pm c = Ok (r, c') ->
  r?."gatewayId" = g?."gatewayId"
  /\ r?."provider" = g?."provider"
  /\ r?."name" = g?."name"
  /\ r?."site" = g?."site"
  /\ r?."status" = g?."status"
  /\ r?."paymentMethods" = g?."paymentMethods".
Proof.
  unfold mapToResponse; intros E.
  destruct (nullish g); [discriminate |].
  destruct (buildOption _ _ c) as [opt c2].
  injection E as <- <-. repeat split.
Qed.

Lemma checkProvider_true_inv (g : value) (pm : Map) :
  checkProvider g pm = Ok true ->
  exists n,
    g?."provider" = VStr n
    /\ String.length (trim n) <> 0%nat
    /\ truthy (Map_get pm (VStr n)) = true
    /\ truthy (Map_get pm (VStr n))?."isActive" = true
    /\ truthy (Map_get pm (VStr n))?."isDisabled" = false.
Proof.
  unfold checkProvider. destruct (nullish g); [discriminate |].
  intros E.
  destruct (g?."provider") as [| | x | x | n | xs | fs] eqn:Eg;
    try (destruct (truthy _) in E; simpl in E; discriminate E).
  destruct (truthy (VStr n)) in E; simpl in E; [| discriminate E].
  destruct (Nat.eqb (String.length (trim n)) 0) eqn:El; [discriminate E |].
  destruct (truthy (Map_get pm (VStr n))) eqn:Et; simpl in E;
    [| discriminate E].
  destruct (truthy (Map_get pm (VStr n))?."isActive") eqn:Ea; simpl in E;
    [| discriminate E].
  destruct (truthy (Map_get pm (VStr n))?."isDisabled") eqn:Ed; simpl in E;
    [discriminate E |].
  exists n. repeat split; try assumption.
  now apply Nat.eqb_neq.
Qed.

Lemma last_named_In (ps : list value) (n : string) :
  truthy (last_named ps n) = true ->
  In (last_named ps n) ps /\ (last_named ps n)?."provider" = VStr n.
Proof.
  unfold last_named.
  assert (H : forall init,
             let p := fold_left
                        (fun found p =>
                           if is_string p?."provider" n then p else found)
                        ps init in
             p = init \/ (In p ps /\ p?."provider" = VStr n)).
  { induction ps as [| p ps IH]; simpl; intros init; [now left |].
    destruct (is_string p?."provider" n) eqn:Ep.
    - destruct (IH p) as [-> | (Hin & Hn)].
      + right. split; [now left |].
        destruct (p?."provider"); try discriminate Ep.
        simpl in Ep. apply String.eqb_eq in Ep. now subst.
      + right. split; [now right | exact Hn].
    - destruct (IH init) as [-> | (Hin & Hn)]; [now left |].
      right. split; [now right | exact Hn]. }
  intros Ht. destruct (H VUndef) as [E | Hp]; [| exact Hp].
  rewrite E in Ht. discriminate Ht.
Qed.

Lemma Array_map_gatewayIds (bal : list (string * num)) (pm : Map)
  (kept out : list value) (c c' : FeeTableCache) :
  Array_map (fun g => mapToResponse g bal pm) kept c = Ok (out, c') ->
  map (fun r => r?."gatewayId") out = map (fun g => g?."gatewayId") kept.
Proof.
  intros E. apply Array_map_spec in E.
  induction E as [| g r kept out (c1 & c2 & Hgr) _ IH]; [reflexivity |].
  simpl. rewrite IH. f_equal.
  now apply mapToResponse_copies in Hgr.
Qed.

Lemma kept_not_nullish (now : Clock) (b : BatchDataResponse) (pm : Map)
  (kept : list value) (g : value) :
  eligible now b pm = Ok kept -> In g kept -> nullish g = false.
Proof.
  intros Hk Hg. apply (eligible_spec _ _ _ _ Hk) in Hg. destruct Hg as (_ & Hp).
  apply passes_true_iff in Hp. destruct Hp as (Hs & _).
  eapply checkStatus_ok_nullish; eassumption.
Qed.

End Returned.

(** X2.  Every record of a result comes from a gateway whose status is the
    boolean [true] and whose provider is a string that is not blank and is
    carried by an entry of the provider list; the last such entry has a
    truthy [isActive] and a falsy [isDisabled]. *)
Theorem returned_gateways_are_active {host : Host} (now : Clock)
  (b : BatchDataResponse) (c c' : FeeTableCache) (out : list value) :
  evaluateFilters now b c = Ok (out, c') ->
  exists providerMap kept,
    providerMapOf b = Ok providerMap
    /\ eligible now b providerMap = Ok kept
    /\ Forall2
         (fun g r =>
            r?."status" = VBool true
            /\ exists name,
                 g?."provider" = VStr name
                 /\ r?."provider" = VStr name
                 /\ String.length (trim name) <> 0%nat
                 /\ let p := last_named (or_default (providers b) []) name in
                    In p (or_default (providers b) [])
                    /\ p?."provider" = VStr name
                    /\ truthy p?."isActive" = true
                    /\ truthy p?."isDisabled" = false)
         kept out.
Proof.
  intros E.
  destruct (evaluateFilters_inv _ _ _ _ _ E) as (pm & kept & Hpm & Hk & Hout).
  exists pm, kept. repeat split; try assumption.
  eapply Forall2_impl; [| exact Hout].
  intros g r Hg (c1 & c2 & Hgr).
  apply mapToResponse_copies in Hgr.
  destruct Hgr as (_ & Hprov & _ & _ & Hstat & _).
  apply (eligible_spec _ _ _ _ Hk) in Hg. destruct Hg as (_ & Hp).
  apply passes_true_iff in Hp. destruct Hp as (Hs & _ & Hpr & _).
  apply checkStatus_true_iff in Hs.
  destruct (checkProvider_true_inv _ _ Hpr) as (n & Hn & Hlen & Ht & Ha & Hd).
  unfold providerMapOf in Hpm.
  pose proof (buildProviderMap_get _ _ _ n Hpm) as Hget.
  change (Map_get pm (VStr n) = last_named (or_default (providers b) []) n)
    in Hget.
  rewrite Hget in Ht, Ha, Hd.
  destruct (last_named_In _ _ Ht) as (Hin & Hname).
  split; [congruence |].
  exists n. cbv zeta. repeat split; try assumption. congruence.
Qed.

Lemma returned_gateways_are_active_witness :
  evaluateFilters noon sample_batch [] = Ok (sample_out, sample_cache)
  /\ map (fun r => (r?."status", r?."provider")) sample_out
     = [(VBool true, VStr "provider-a"); (VBool true, VStr "provider-c")]
  /\ exists providerMap kept,
       providerMapOf sample_batch = Ok providerMap
       /\ eligible noon sample_batch providerMap = Ok kept.
Proof.
  split; [exact sample_run |].
  split; [vm_compute; reflexivity |].
  destruct (returned_gateways_are_active noon sample_batch [] sample_cache
              sample_out sample_run) as (pm & kept & Hpm & Hk & _).
  exists pm, kept. split; assumption.
Defined.

(** X3.  Without provider entries (the list missing or empty) a run that
    returns returns nothing, and leaves the fee table cache as it was. *)
Theorem no_providers_no_gateways {host : Host} (now : Clock)
  (b : BatchDataResponse) (c c' : FeeTableCache) (out : list value) :
  or_default (providers b) [] = [] ->
  evaluateFilters now b c = Ok (out, c') ->
  out = [] /\ c' = c.
Proof.
  intros Hps E. unfold evaluateFilters in E. rewrite Hps in E. simpl in E.
  inv_bind E.
  assert (Hkept : a = []).
  { destruct a as [| g kept]; [reflexivity | exfalso].
    assert (Hg : In g (g :: kept)) by now left.
    apply (eligible_spec _ _ _ _ Ha) in Hg. destruct Hg as (_ & Hp).
    apply passes_true_iff in Hp. destruct Hp as (_ & _ & Hpr & _).
    destruct (checkProvider_true_inv _ _ Hpr) as (n & _ & _ & Ht & _).
    discriminate Ht. }
  subst a. simpl in E. injection E as <- <-. split; reflexivity.
Qed.

Lemma no_providers_no_gateways_witness :
  or_default (providers no_provider_batch) [] = []
  /\ evaluateFilters noon no_provider_batch sample_cache
     = Ok ([], sample_cache).
Proof.
  split; [reflexivity |].
  destruct (evaluateFilters noon no_provider_batch sample_cache)
    as [[out c'] | e] eqn:E.
  - destruct (no_providers_no_gateways noon no_provider_batch sample_cache c'
                out eq_refl E) as (-> & ->).
    reflexivity.
  - vm_compute in E. discriminate E.
Defined.

(** X4.  The balances do not gate: with any other [balances] record the run
    returns as well and returns the same gateways, in the same order; only
    the balance figures of the records can differ.  [checkBalanceLimit] is
    not consulted. *)
Theorem balances_do_not_gate {host : Host} (now : Clock)
  (b : BatchDataResponse) (c c' : FeeTableCache) (out : list value)
  (bal : option (list (string * num))) :
  evaluateFilters now b c = Ok (out, c') ->
  exists out' c'',
    evaluateFilters now (with_balances b bal) c = Ok (out', c'')
    /\ map (fun r => r?."gatewayId") out' = map (fun r => r?."gatewayId") out
    /\ List.length out' = List.length out.
Proof.
  intros E. unfold evaluateFilters in E |- *.
  inv_bind E. inv_bind E. rename a into pm, a0 into kept.
  change (providers (with_balances b bal)) with (providers b).
  rewrite Ha. simpl.
  change (eligible now (with_balances b bal) pm) with (eligible now b pm).
  rewrite Ha0. simpl.
  destruct (Array_map_total
              (fun g => mapToResponse g (or_default bal []) pm) kept c)
    as (out' & c'' & Hout').
  { intros g c0 Hg. apply mapToResponse_total.
    eapply kept_not_nullish; eassumption. }
  exists out', c''. split; [exact Hout' |].
  assert (Hids : map (fun r => r?."gatewayId") out'
                 = map (fun r => r?."gatewayId") out).
  { rewrite (Array_map_gatewayIds _ _ _ _ _ _ Hout').
    now rewrite (Array_map_gatewayIds _ _ _ _ _ _ E). }
  split; [exact Hids |].
  rewrite <- (length_map (fun r => r?."gatewayId") out'), Hids.
  apply length_map.
Qed.

(** On the sample below the second gateway has a balance of 50 under a
    minimum of 500: [checkBalanceLimit] would refuse it, the run returns
    it. *)
Lemma balances_do_not_gate_witness :
  checkBalanceLimit
    (nth 1 (or_default (gateways duplicate_provider_batch) []) VUndef)
    (or_default (balances duplicate_provider_batch) []) duplicate_providerMap
  = Ok false
  /\ exists out c' out' c'',
       evaluateFilters noon duplicate_provider_batch [] = Ok (out, c')
       /\ map (fun r => r?."gatewayId") out = [VStr "gw-002"]
       /\ evaluateFilters noon (with_balances duplicate_provider_batch None) []
          = Ok (out', c'')
       /\ map (fun r => r?."gatewayId") out' = [VStr "gw-002"].
Proof.
  split; [vm_compute; reflexivity |].
  destruct (evaluateFilters noon duplicate_provider_batch []) as [[out c'] | e]
    eqn:E; [| vm_compute in E; discriminate E].
  destruct (balances_do_not_gate noon duplicate_provider_batch [] c' out None E)
    as (out' & c'' & E' & Hids & _).
  exists out, c', out', c''.
  assert (Hout : map (fun r => r?."gatewayId") out = [VStr "gw-002"]).
  { vm_compute in E. injection E as <- <-. reflexivity. }
  split; [reflexivity |]. split; [exact Hout |].
  split; [exact E' |]. now rewrite Hids.
Defined.

(** ** The time gate *)

Section TimeGate.
Context {host : Host}.

Lemma time_minutes_Fin_string (v : value) (a : Q) :
  time_minutes v = Fin a -> truthy v = true /\ is_str v = true.
Proof.
  unfold time_minutes. destruct v as [| | x | x | s | xs | fs]; simpl;
    try discriminate.
  destruct s as [| ch s]; [| intros _; split; reflexivity].
  simpl. unfold minutes_of; simpl.
  destruct (StringToNumber ""); simpl; discriminate.
Qed.

Lemma checkTimeRange_window (now : Clock) (g : value) (pm : Map) (a z : Q) :
  nullish g = false ->
  time_minutes (gate_time g (Map_get pm g?."provider") "openingTime") = Fin a ->
  time_minutes (gate_time g (Map_get pm g?."provider") "closingTime") = Fin z ->
  checkTimeRange now g pm
  = Ok (Qle_bool a (clock_minutes now) && Qle_bool (clock_minutes now) z).
Proof.
  intros Hg Ho Hc. unfold checkTimeRange. rewrite Hg. cbv zeta.
  destruct (time_minutes_Fin_string _ _ Ho) as (Hto & Hso).
  destruct (time_minutes_Fin_string _ _ Hc) as (Htc & Hsc).
  rewrite Hto, Htc. simpl negb. cbv iota.
  unfold time_minutes in Ho, Hc.
  destruct (split_numbers (gate_time g _ "openingTime")) as [o | e];
    [| discriminate Ho].
  destruct (split_numbers (gate_time g _ "closingTime")) as [cl | e];
    [| discriminate Hc].
  simpl. rewrite Ho, Hc. reflexivity.
Qed.

End TimeGate.

(** X5.  When the two ends of the resolved deposit window read as minutes
    of the day, the time gate passes exactly when the clock lies between
    them, both ends included; a window that opens after it closes (one
    meant to run past midnight) passes at no time of day. *)
Theorem time_gate_is_an_inclusive_window {host : Host} (now : Clock)
  (g : value) (providerMap : Map) (opening closing : Q) :
  nullish g = false ->
  time_minutes (gate_time g (Map_get providerMap g?."provider") "openingTime")
  = Fin opening ->
  time_minutes (gate_time g (Map_get providerMap g?."provider") "closingTime")
  = Fin closing ->
  (checkTimeRange now g providerMap = Ok true <->
   opening <= clock_minutes now /\ clock_minutes now <= closing)
  /\ (checkTimeRange now g providerMap = Ok false <->
      ~ (opening <= clock_minutes now /\ clock_minutes now <= closing))
  /\ (closing < opening -> checkTimeRange now g providerMap = Ok false).
Proof.
  intros Hg Ho Hc. rewrite (checkTimeRange_window now g providerMap _ _ Hg Ho Hc).
  assert (Hiff : (Qle_bool opening (clock_minutes now)
                  && Qle_bool (clock_minutes now) closing) = true
                 <-> opening <= clock_minutes now
                     /\ clock_minutes now <= closing).
  { rewrite andb_true_iff, !Qle_bool_iff. tauto. }
  set (w := Qle_bool opening (clock_minutes now)
            && Qle_bool (clock_minutes now) closing) in *.
  clearbody w.
  split; [| split].
  - split; [intros E; injection E as E; now apply Hiff |].
    intros H; apply Hiff in H. now rewrite H.
  - split.
    + intros E H. apply Hiff in H. rewrite H in E. discriminate E.
    + intros H. destruct w; [exfalso; apply H; now apply Hiff |].
      reflexivity.
  - intros Hlt. destruct w; [| reflexivity].
    destruct (proj1 Hiff eq_refl) as (E1 & E2). exfalso.
    apply (Qlt_not_le _ _ Hlt). eapply Qle_trans; eassumption.
Qed.

(** The second gateway of the sample below takes the provider's window,
    08:00 to 22:00: open at noon, closed at midnight. *)
Lemma time_gate_is_an_inclusive_window_witness :
  nullish blank_time_second = false
  /\ time_minutes
       (gate_time blank_time_second
          (Map_get blank_time_providerMap blank_time_second?."provider")
          "openingTime") = Fin 480
  /\ time_minutes
       (gate_time blank_time_second
          (Map_get blank_time_providerMap blank_time_second?."provider")
          "closingTime") = Fin 1320
  /\ checkTimeRange noon blank_time_second blank_time_providerMap = Ok true
  /\ checkTimeRange midnight blank_time_second blank_time_providerMap = Ok false.
Proof.
  assert (Hg : nullish blank_time_second = false) by reflexivity.
  assert (Ho : time_minutes
                 (gate_time blank_time_second
                    (Map_get blank_time_providerMap
                       blank_time_second?."provider") "openingTime")
               = Fin 480) by reflexivity.
  assert (Hc : time_minutes
                 (gate_time blank_time_second
                    (Map_get blank_time_providerMap
                       blank_time_second?."provider") "closingTime")
               = Fin 1320) by reflexivity.
  split; [exact Hg |]. split; [exact Ho |]. split; [exact Hc |].
  split.
  - destruct (time_gate_is_an_inclusive_window noon _ _ _ _ Hg Ho Hc)
      as (Hopen & _).
    apply Hopen. split; discriminate.
  - destruct (time_gate_is_an_inclusive_window midnight _ _ _ _ Hg Ho Hc)
      as (_ & Hclosed & _).
    apply Hclosed. intros (H & _). apply H. reflexivity.
Defined.

(** X6.  A gateway whose own [metaConfig] gives a blank opening or closing
    time for deposits passes the time gate at every time of day, whatever
    window its [serviceTime] or its provider define: the gate stops at the
    blank ([??]), where the projected service time goes on to the next
    value ([||]). *)
Theorem blank_time_switches_the_gate_off {host : Host} (now : Clock)
  (g : value) (providerMap : Map) (field : string) :
  nullish g = false ->
  field = "openingTime" \/ field = "closingTime" ->
  g?."metaConfig"?."operateTime"?."deposit"?.field = VStr "" ->
  checkTimeRange now g providerMap = Ok true
  /\ forall bal c r c',
       mapToResponse g bal providerMap c = Ok (r, c') ->
       r?."serviceTime"?."deposit"?.field
       = (g?."serviceTime"?."deposit"?.field
          <||> (Map_get providerMap g?."provider")?."operateTime"?."deposit"?.field
          <||> VStr (if String.eqb field "openingTime" then "00:00"
                     else "23:59")).
Proof.
  intros Hg Hf Hblank. split.
  - unfold checkTimeRange. rewrite Hg. cbv zeta.
    assert (Hgate : gate_time g (Map_get providerMap g?."provider") field
                    = VStr "").
    { unfold gate_time. rewrite Hblank. reflexivity. }
    destruct Hf as [-> | ->]; rewrite Hgate; simpl.
    + reflexivity.
    + destruct (truthy _); reflexivity.
  - intros bal c r c' E. unfold mapToResponse in E. rewrite Hg in E.
    destruct (buildOption _ _ c) as [opt c2]. injection E as <- _.
    destruct Hf as [-> | ->]; simpl; unfold merged_time;
      rewrite Hblank; reflexivity.
Qed.

Lemma blank_time_switches_the_gate_off_witness :
  nullish blank_time_first = false
  /\ blank_time_first?."metaConfig"?."operateTime"?."deposit"?."openingTime"
     = VStr ""
  /\ checkTimeRange midnight blank_time_first blank_time_providerMap = Ok true
  /\ checkTimeRange midnight blank_time_second blank_time_providerMap = Ok false
  /\ exists r c',
       mapToResponse blank_time_first [] blank_time_providerMap [] = Ok (r, c')
       /\ r?."serviceTime"?."deposit"?."openingTime" = VStr "08:00".
Proof.
  assert (Hg : nullish blank_time_first = false) by reflexivity.
  assert (Hb : blank_time_first?."metaConfig"?."operateTime"?."deposit"?."openingTime"
               = VStr "") by reflexivity.
  destruct (blank_time_switches_the_gate_off midnight blank_time_first
              blank_time_providerMap "openingTime" Hg (or_introl eq_refl) Hb)
    as (Hgate & Hproj).
  split; [exact Hg |]. split; [exact Hb |]. split; [exact Hgate |].
  split; [vm_compute; reflexivity |].
  destruct (mapToResponse blank_time_first [] blank_time_providerMap [])
    as [[r c'] | e] eqn:E; [| vm_compute in E; discriminate E].
  exists r, c'. split; [reflexivity |].
  rewrite (Hproj _ _ _ _ E). reflexivity.
Defined.

(** ** What a record always holds *)

Lemma or_else_truthy (a b : value) :
  truthy b = true -> truthy (a <||> b) = true.
Proof.
  intros Hb. unfold or_else. destruct (truthy a) eqn:Ea; assumption.
Qed.

Lemma coalesce_present (a b : value) :
  nullish b = false -> nullish (a <??> b) = false.
Proof.
  intros Hb. unfold coalesce. destruct (nullish a) eqn:Ea; assumption.
Qed.

(** X7.  In every record of a result the top-level [min] and [max] repeat
    the deposit bounds of [limit]; the four bounds, the two balance figures
    and [balanceLimit] are never [undefined] (the bounds and the figures
    never [null] either); and the four service times and the description
    are never blank. *)
Theorem records_are_filled_in {host : Host} (now : Clock)
  (b : BatchDataResponse) (c c' : FeeTableCache) (out : list value) :
  evaluateFilters now b c = Ok (out, c') ->
  Forall
    (fun r =>
       r?."min" = r?."limit"?."deposit"?."min"
       /\ r?."max" = r?."limit"?."deposit"?."max"
       /\ (forall direction bound,
             (direction = "deposit" \/ direction = "withdraw") ->
             (bound = "min" \/ bound = "max") ->
             nullish r?."limit"?.direction?.bound = false)
       /\ nullish r?."currentBalance" = false
       /\ nullish r?."totalBalance" = false
       /\ r?."balanceLimit" <> VUndef
       /\ (forall direction field,
             (direction = "deposit" \/ direction = "withdraw") ->
             (field = "openingTime" \/ field = "closingTime") ->
             truthy r?."serviceTime"?.direction?.field = true)
       /\ truthy r?."description" = true)
    out.
Proof.
  intros E.
  destruct (evaluateFilters_inv _ _ _ _ _ E) as (pm & kept & _ & _ & Hout).
  eapply Forall2_right; [| exact Hout].
  intros g r (c1 & c2 & Hgr). unfold mapToResponse in Hgr.
  destruct (nullish g); [discriminate |].
  destruct (buildOption _ _ c1) as [opt c3]. injection Hgr as <- _.
  split; [reflexivity |]. split; [reflexivity |].
  split.
  { intros direction bound [-> | ->] [-> | ->]; simpl; unfold merged_limit;
      apply coalesce_present; reflexivity. }
  split; [simpl; apply coalesce_present; reflexivity |].
  split; [simpl; apply coalesce_present; reflexivity |].
  split.
  { simpl.
    set (own := g?."metaConfig"?."balanceLimit" <??> g?."balanceLimit").
    unfold coalesce at 1.
    destruct (nullish own) eqn:E1; [discriminate |].
    intros H; rewrite H in E1; discriminate E1. }
  split.
  { intros direction field [-> | ->] [-> | ->]; simpl; unfold merged_time;
      apply or_else_truthy; reflexivity. }
  simpl. apply or_else_truthy. destruct (truthy g?."groupId"); reflexivity.
Qed.

Lemma records_are_filled_in_witness :
  evaluateFilters noon sample_batch [] = Ok (sample_out, sample_cache)
  /\ Forall (fun r => r?."min" = r?."limit"?."deposit"?."min"
                      /\ truthy r?."description" = true)
            sample_out.
Proof.
  split; [exact sample_run |].
  pose proof (records_are_filled_in noon sample_batch [] sample_cache
                sample_out sample_run) as H.
  eapply Forall_impl; [| exact H].
  intros r (Hmin & _ & _ & _ & _ & _ & _ & Hd). split; assumption.
Defined.

(** ** The fee table cache cannot be seen *)

Section Memo.
Context {host : Host}.

Lemma buildOption_cached (po go : value) (c1 c2 : FeeTableCache) :
  cache_ok c1 -> cache_ok c2 ->
  fst (buildOption po go c1) = fst (buildOption po go c2).
Proof.
  intros H1 H2. unfold buildOption.
  destruct (negb (truthy _)); [reflexivity |].
  pose proof (generateFeeEstimationTable_cached
                (sanitizeFeeStructure (po <??> go <??> VObj [])?."fee") c1 H1)
    as (E1 & _).
  pose proof (generateFeeEstimationTable_cached
                (sanitizeFeeStructure (po <??> go <??> VObj [])?."fee") c2 H2)
    as (E2 & _).
  destruct (generateFeeEstimationTable _ c1) as [t1 d1].
  destruct (generateFeeEstimationTable _ c2) as [t2 d2].
  simpl in *. now subst.
Qed.

Lemma mapToResponse_cached (g : value) (bal : list (string * num)) (pm : Map)
  (c1 c1' c2 : FeeTableCache) (r : value) :
  cache_ok c1 -> cache_ok c2 ->
  mapToResponse g bal pm c1 = Ok (r, c1') ->
  cache_ok c1'
  /\ exists c2', mapToResponse g bal pm c2 = Ok (r, c2') /\ cache_ok c2'.
Proof.
  intros H1 H2. unfold mapToResponse.
  destruct (nullish g); [discriminate |].
  pose proof (buildOption_cached (Map_get pm g?."provider")?."option"
                g?."option" c1 c2 H1 H2) as Ho.
  pose proof (buildOption_cache_ok (Map_get pm g?."provider")?."option"
                g?."option" c1 H1) as Hc1.
  pose proof (buildOption_cache_ok (Map_get pm g?."provider")?."option"
                g?."option" c2 H2) as Hc2.
  destruct (buildOption _ _ c1) as [o1 d1].
  destruct (buildOption _ _ c2) as [o2 d2].
  simpl in *. subst o2. intros E. injection E as <- <-.
  split; [exact Hc1 |]. exists d2. split; [reflexivity | exact Hc2].
Qed.

Lemma Array_map_cached (bal : list (string * num)) (pm : Map)
  (l out : list value) (c1 c1' c2 : FeeTableCache) :
  cache_ok c1 -> cache_ok c2 ->
  Array_map (fun g => mapToResponse g bal pm) l c1 = Ok (out, c1') ->
  exists c2',
    Array_map (fun g => mapToResponse g bal pm) l c2 = Ok (out, c2')
    /\ cache_ok c2'.
Proof.
  revert out c1 c2; induction l as [| x l IH]; simpl; intros out c1 c2 H1 H2 E.
  - injection E as <- <-. eauto.
  - inv_bind E. inv_bind E. injection E as <- <-.
    destruct a as [r d1], a0 as [rs d1']; simpl in *.
    destruct (mapToResponse_cached _ _ _ _ _ c2 _ H1 H2 Ha)
      as (Hd1 & d2 & E2 & Hd2).
    rewrite E2. simpl.
    destruct (IH _ _ d2 Hd1 Hd2 Ha0) as (d2' & E2' & Hd2').
    rewrite E2'. simpl. eauto.
Qed.

End Memo.

(** X8.  Memoisation is not observable: from any two sound caches a run
    over the same snapshot at the same time returns the same records, or
    raises the same error; and it leaves a sound cache behind. *)
Theorem memoisation_is_not_observable {host : Host} (now : Clock)
  (b : BatchDataResponse) (c1 c2 : FeeTableCache) :
  cache_ok c1 -> cache_ok c2 ->
  match evaluateFilters now b c1 with
  | Ok (out, c1') =>
      cache_ok c1'
      /\ exists c2', evaluateFilters now b c2 = Ok (out, c2') /\ cache_ok c2'
  | Throw e => evaluateFilters now b c2 = Throw e
  end.
Proof.
  intros H1 H2. unfold evaluateFilters.
  destruct (buildProviderMap _ []) as [pm | e]; simpl; [| reflexivity].
  destruct (eligible now b pm) as [kept | e] eqn:Ek; simpl; [| reflexivity].
  destruct (Array_map_total
              (fun g => mapToResponse g (or_default (balances b) []) pm)
              kept c1) as (out & c1' & E).
  { intros g c0 Hg. apply mapToResponse_total.
    eapply kept_not_nullish; eassumption. }
  rewrite E. split.
  - exact (Array_map_cache_ok _ _ _ _ _ _ H1 E).
  - exact (Array_map_cached _ _ _ _ _ _ c2 H1 H2 E).
Qed.

Lemma memoisation_is_not_observable_witness :
  cache_ok sample_cache
  /\ cache_ok []
  /\ exists c', evaluateFilters noon sample_batch sample_cache
                = Ok (sample_out, c').
Proof.
  assert (H1 : cache_ok []) by exact cache_ok_nil.
  assert (H2 : cache_ok sample_cache).
  { exact (evaluateFilters_cache_ok noon sample_batch [] sample_cache sample_out
             cache_ok_nil sample_run). }
  split; [exact H2 |]. split; [exact H1 |].
  pose proof (memoisation_is_not_observable noon sample_batch [] sample_cache
                H1 H2) as H.
  rewrite sample_run in H. destruct H as (_ & c' & E & _).
  exists c'. exact E.
Defined.

(** ** A second run *)

Lemma num_eqb_refl (a : num) : num_eqb a a = true.
Proof.
  destruct a as [| [x y]]; simpl; [reflexivity |].
  now rewrite Z.eqb_refl, Pos.eqb_refl.
Qed.

Lemma value_eqb_refl : forall v : value, value_eqb v v = true.
Proof.
  fix IH 1. intros v; destruct v; simpl.
  - reflexivity.
  - reflexivity.
  - apply Bool.eqb_reflx.
  - apply num_eqb_refl.
  - apply String.eqb_refl.
  - induction xs as [| x xs IHxs]; [reflexivity |].
    rewrite (IH x). exact IHxs.
  - induction fields as [| [k x] fs IHfs]; [reflexivity |].
    rewrite String.eqb_refl, (IH x). exact IHfs.
Qed.

Lemma cache_get_app (c ext : FeeTableCache) (key t : value) :
  cache_get c key = Some t -> cache_get (c ++ ext) key = Some t.
Proof.
  induction c as [| [k t'] c IH]; simpl; [discriminate |].
  destruct (value_eqb k key); [trivial | exact IH].
Qed.

Lemma cache_set_miss (c : FeeTableCache) (key t : value) :
  cache_get c key = None -> cache_set c key t = c ++ [(key, t)].
Proof.
  induction c as [| [k t'] c IH]; simpl; [reflexivity |].
  destruct (value_eqb k key); [discriminate |].
  intros E. now rewrite IH.
Qed.

Lemma cache_get_last (c : FeeTableCache) (key t : value) :
  cache_get c key = None -> cache_get (c ++ [(key, t)]) key = Some t.
Proof.
  induction c as [| [k t'] c IH]; simpl.
  - now rewrite value_eqb_refl.
  - destruct (value_eqb k key); [discriminate | exact IH].
Qed.

Section SecondRun.
Context {host : Host}.

Lemma generateFeeEstimationTable_stable (fs : value) (c ca : FeeTableCache)
  (t : value) :
  generateFeeEstimationTable fs c = (t, ca) ->
  (exists e, ca = c ++ e)
  /\ forall ext, generateFeeEstimationTable fs (ca ++ ext) = (t, ca ++ ext).
Proof.
  unfold generateFeeEstimationTable.
  destruct (cache_get c (cacheKey fs)) as [t0 |] eqn:Eg; intros E;
    injection E as <- <-.
  - split; [exists []; now rewrite app_nil_r |].
    intros ext. now rewrite (cache_get_app _ ext _ _ Eg).
  - rewrite (cache_set_miss _ _ _ Eg).
    split; [eauto |].
    intros ext.
    now rewrite (cache_get_app _ ext _ _ (cache_get_last _ _ (fee_table fs) Eg)).
Qed.

Lemma buildOption_stable (po go : value) (c ca : FeeTableCache) (o : value) :
  buildOption po go c = (o, ca) ->
  (exists e, ca = c ++ e)
  /\ forall ext, buildOption po go (ca ++ ext) = (o, ca ++ ext).
Proof.
  unfold buildOption.
  destruct (negb (truthy _)).
  - intros E; injection E as <- <-.
    split; [exists []; now rewrite app_nil_r | reflexivity].
  - destruct (generateFeeEstimationTable _ c) as [t c1] eqn:Eg.
    intros E; injection E as <- <-.
    destruct (generateFeeEstimationTable_stable _ _ _ _ Eg) as (He & Hs).
    split; [exact He |]. intros ext. now rewrite Hs.
Qed.

Lemma mapToResponse_stable (g : value) (bal : list (string * num)) (pm : Map)
  (c ca : FeeTableCache) (r : value) :
  mapToResponse g bal pm c = Ok (r, ca) ->
  (exists e, ca = c ++ e)
  /\ forall ext, mapToResponse g bal pm (ca ++ ext) = Ok (r, ca ++ ext).
Proof.
  unfold mapToResponse. destruct (nullish g); [discriminate |].
  destruct (buildOption _ _ c) as [o c1] eqn:Eb.
  intros E; injection E as <- <-.
  destruct (buildOption_stable _ _ _ _ _ Eb) as (He & Hs).
  split; [exact He |]. intros ext. now rewrite Hs.
Qed.

Lemma Array_map_stable (bal : list (string * num)) (pm : Map)
  (l out : list value) (c ca : FeeTableCache) :
  Array_map (fun g => mapToResponse g bal pm) l c = Ok (out, ca) ->
  (exists e, ca = c ++ e)
  /\ forall ext,
       Array_map (fun g => mapToResponse g bal pm) l (ca ++ ext)
       = Ok (out, ca ++ ext).
Proof.
  revert out c; induction l as [| x l IH]; simpl; intros out c E.
  - injection E as <- <-.
    split; [exists []; now rewrite app_nil_r | reflexivity].
  - inv_bind E. inv_bind E. injection E as <- <-.
    destruct a as [r c1], a0 as [rs c2]; simpl in *.
    destruct (mapToResponse_stable _ _ _ _ _ _ Ha) as ((e1 & He1) & Hs1).
    destruct (IH _ _ Ha0) as ((e2 & He2) & Hs2).
    split; [exists (e1 ++ e2); subst; now rewrite app_assoc |].
    intros ext. rewrite He2, <- app_assoc, Hs1. simpl.
    rewrite app_assoc, <- He2, Hs2. reflexivity.
Qed.

End SecondRun.

(** X9.  A run only appends to the fee table cache, and a second run over
    the same snapshot at the same time, started from the cache the first one
    left, returns the same records and leaves that cache as it is. *)
Theorem second_run_adds_nothing {host : Host} (now : Clock)
  (b : BatchDataResponse) (c c' : FeeTableCache) (out : list value) :
  evaluateFilters now b c = Ok (out, c') ->
  (exists added, c' = c ++ added)
  /\ evaluateFilters now b c' = Ok (out, c').
Proof.
  unfold evaluateFilters; intros E.
  inv_bind E. inv_bind E. rewrite Ha; simpl. rewrite Ha0; simpl.
  destruct (Array_map_stable _ _ _ _ _ _ E) as (He & Hs).
  split; [exact He |].
  specialize (Hs []). now rewrite app_nil_r in Hs.
Qed.

Lemma second_run_adds_nothing_witness :
  evaluateFilters noon sample_batch [] = Ok (sample_out, sample_cache)
  /\ List.length sample_cache = 1%nat
  /\ evaluateFilters noon sample_batch sample_cache
     = Ok (sample_out, sample_cache).
Proof.
  split; [exact sample_run |]. split; [reflexivity |].
  exact (proj2 (second_run_adds_nothing noon sample_batch [] sample_cache
                  sample_out sample_run)).
Defined.

(** ** The rows of the fee table *)

Lemma fee_table_rows {host : Host} (fs : value) :
  fee_table fs = VObj (map (fee_row fs) fee_amounts).
Proof.
  reflexivity.
Qed.

Lemma calculateFee_missing {host : Host} (amount : Z) (config : value) :
  truthy config = false -> calculateFee amount config = VZ 0.
Proof.
  intros H. unfold calculateFee. now rewrite H.
Qed.

(** X10.  Whatever the fee structure and whatever sound cache is held, the
    table has exactly the 20 rows 50, 100, ..., 1000 in that order, each
    with a withdraw and a deposit fee; a direction the structure does not
    configure costs 0 in every row. *)
Theorem fee_table_shape {host : Host} (feeStructure : value)
  (c : FeeTableCache) :
  cache_ok c ->
  exists rows,
    fst (generateFeeEstimationTable feeStructure c) = VObj rows
    /\ map fst rows
       = [ "50"; "100"; "150"; "200"; "250"; "300"; "350"; "400"; "450";
           "500"; "550"; "600"; "650"; "700"; "750"; "800"; "850"; "900";
           "950"; "1000" ]
    /\ Forall (fun row => exists w d,
                 snd row = VObj [("withdraw", w); ("deposit", d)]
                 /\ (truthy feeStructure?."withdraw" = false -> w = VZ 0)
                 /\ (truthy feeStructure?."deposit" = false -> d = VZ 0))
              rows.
Proof.
  intros Hc.
  destruct (generateFeeEstimationTable_cached feeStructure c Hc) as (-> & _).
  rewrite fee_table_rows. eexists. split; [reflexivity |].
  split; [reflexivity |].
  apply Forall_forall. intros row Hrow. apply in_map_iff in Hrow.
  destruct Hrow as (a & <- & _). simpl.
  eexists; eexists. split; [reflexivity |].
  split; apply calculateFee_missing.
Qed.

Lemma fee_table_shape_witness :
  cache_ok sample_cache
  /\ exists rows,
       fst (generateFeeEstimationTable
              (VObj [("deposit", percent_fee (3 # 2))]) sample_cache)
       = VObj rows
       /\ List.length rows = 20%nat
       /\ Forall (fun row => (snd row)?."withdraw" = VZ 0) rows.
Proof.
  assert (Hc : cache_ok sample_cache).
  { exact (evaluateFilters_cache_ok noon sample_batch [] sample_cache sample_out
             cache_ok_nil sample_run). }
  split; [exact Hc |].
  destruct (fee_table_shape (VObj [("deposit", percent_fee (3 # 2))])
              sample_cache Hc) as (rows & Ht & Hkeys & Hrows).
  exists rows. split; [exact Ht |]. split.
  - rewrite <- (length_map fst rows), Hkeys. reflexivity.
  - eapply Forall_impl; [| exact Hrows].
    intros row (w & d & -> & Hw & _). rewrite (Hw eq_refl). reflexivity.
Defined.

(** ** A percentage fee grows with the amount *)

Lemma rounded_2dp_monotone (x1 x2 r1 r2 : Q) :
  x1 <= x2 -> rounded_2dp x1 r1 -> rounded_2dp x2 r2 -> r1 <= r2.
Proof.
  intros Hx (n1 & E1 & _ & U1) (n2 & E2 & L2 & _).
  assert (Hn : (n1 <= n2)%Z).
  { assert (H : inject_Z n1 < inject_Z (n2 + 1)).
    { rewrite inject_Z_plus. change (inject_Z 1) with 1. lra. }
    rewrite <- Zlt_Qlt in H. lia. }
  rewrite E1, E2. apply Qmult_le_compat_r; [| discriminate].
  now rewrite <- Zle_Qle.
Qed.

(** X11.  A [percent] or [percentage] fee with a value that is not negative
    never gets smaller when the amount grows, and never falls below the
    configured minimum. *)
Theorem percent_fee_is_monotone {host : Host} (config : value)
  (type : string) (v m : Q) (a1 a2 : Z) :
  config?."type" = VStr type ->
  type = "percent" \/ type = "percentage" ->
  config?."value" = VNum (Fin v) ->
  config?."min" = VNum (Fin m) ->
  0 <= v ->
  (a1 <= a2)%Z ->
  exists q1 q2,
    calculateFee a1 config = VNum (Fin q1)
    /\ calculateFee a2 config = VNum (Fin q2)
    /\ q1 <= q2
    /\ m <= q1.
Proof.
  intros Ht Hp Hv Hm Hv0 Ha.
  destruct (proj2 (calculateFee_matches a1 config type v m Ht Hv Hm) Hp)
    as (q1 & r1 & E1 & R1 & (Hr1 & Hm1 & Hq1)).
  destruct (proj2 (calculateFee_matches a2 config type v m Ht Hv Hm) Hp)
    as (q2 & r2 & E2 & R2 & (Hr2 & Hm2 & Hq2)).
  exists q1, q2. split; [exact E1 |]. split; [exact E2 |].
  split; [| exact Hm1].
  assert (Hr : r1 <= r2).
  { apply (rounded_2dp_monotone (inject_Z a1 * v / 100)
             (inject_Z a2 * v / 100)); try assumption.
    apply Qmult_le_compat_r; [| discriminate].
    apply Qmult_le_compat_r; [| exact Hv0].
    now rewrite <- Zle_Qle. }
  destruct Hq1 as [-> | ->]; [| exact Hm2].
  eapply Qle_trans; eassumption.
Qed.

Lemma percent_fee_is_monotone_witness :
  (percent_fee (3 # 2))?."type" = VStr "percent"
  /\ 0 <= 3 # 2
  /\ (100 <= 1000)%Z
  /\ exists q1 q2,
       calculateFee 100 (percent_fee (3 # 2)) = VNum (Fin q1)
       /\ calculateFee 1000 (percent_fee (3 # 2)) = VNum (Fin q2)
       /\ q1 <= q2.
Proof.
  assert (Hv : 0 <= 3 # 2) by discriminate.
  assert (Ha : (100 <= 1000)%Z) by lia.
  split; [reflexivity |]. split; [exact Hv |]. split; [exact Ha |].
  destruct (percent_fee_is_monotone (percent_fee (3 # 2)) "percent" (3 # 2) 0
              100 1000 eq_refl (or_introl eq_refl) eq_refl eq_refl Hv Ha)
    as (q1 & q2 & E1 & E2 & Hq & _).
  exists q1, q2. repeat split; assumption.
Defined.

(** ** The normalised fee *)

Lemma or_else_defined (a b : value) : b <> VUndef -> (a <||> b) <> VUndef.
Proof.
  intros Hb. unfold or_else. destruct (truthy a) eqn:Ea; [| exact Hb].
  intros H; rewrite H in Ea; discriminate Ea.
Qed.

Lemma fee_config_normalised (config : value) : normalised (fee_config config).
Proof.
  unfold fee_config. eexists; eexists; eexists.
  split; [reflexivity |].
  split; [apply or_else_truthy; reflexivity |].
  split; apply or_else_defined; discriminate.
Qed.

Lemma legacy_config_normalised (legacyType legacyValue : value)
  (direction : string) :
  truthy legacyType = true ->
  typeof_number legacyValue?.direction = true ->
  normalised (legacy_config legacyType legacyValue direction).
Proof.
  intros Ht Hn. unfold legacy_config. eexists; eexists; eexists.
  split; [reflexivity |]. split; [exact Ht |].
  split; [| apply or_else_defined; discriminate].
  intros H; rewrite H in Hn; discriminate Hn.
Qed.

Ltac split_ifs :=
  repeat match goal with
         | |- context [if ?b then _ else _] => destruct b eqn:?
         end.

(** X12.  The normalised fee holds nothing but [deposit], [withdraw] and
    [settlement], and [settlement] nothing but [normal] and [usdt]; each of
    these configs is an object of exactly [type], [value] and [min] with
    the type set.  Every other property of the fee and of its configs is
    dropped. *)
Theorem sanitizeFeeStructure_shape (fee : value) :
  exists fs,
    sanitizeFeeStructure fee = VObj fs
    /\ (forall k, In k (map fst fs) ->
                  k = "deposit" \/ k = "withdraw" \/ k = "settlement")
    /\ (forall k config,
          k = "deposit" \/ k = "withdraw" ->
          lookup k fs = Some config -> normalised config)
    /\ (forall settlement,
          lookup "settlement" fs = Some settlement ->
          exists ss,
            settlement = VObj ss
            /\ forall k config,
                 In (k, config) ss ->
                 (k = "normal" \/ k = "usdt") /\ normalised config).
Proof.
  unfold sanitizeFeeStructure. cbv zeta.
  pose proof (or_else_truthy fee?."type" (VStr "fixed") eq_refl) as Hty.
  split_ifs; simpl; eexists; (split; [reflexivity |]);
    (split; [simpl; intros k Hk;
             repeat (destruct Hk as [<- | Hk]; [tauto |]); destruct Hk |]);
    (split;
      [ intros k config [-> | ->] E; simpl in E;
        try discriminate E; injection E as <-;
        first [ apply fee_config_normalised
              | apply legacy_config_normalised; [exact Hty |];
                match goal with
                | H : (_ && _)%bool = true |- _ =>
                    apply andb_true_iff in H; apply H
                end ]
      | intros settlement E; simpl in E; try discriminate E;
        injection E as <-; eexists; (split; [reflexivity |]);
        simpl; intros k config Hk;
        repeat (destruct Hk as [Hk | Hk];
                [injection Hk as <- <-;
                 split; [tauto | apply fee_config_normalised] |]);
        destruct Hk ]).
Qed.

Lemma or_else_idem (a b : value) : (a <||> b) <||> b = a <||> b.
Proof.
  unfold or_else. destruct (truthy a) eqn:Ea; [now rewrite Ea |].
  destruct (truthy b); reflexivity.
Qed.

Lemma fee_config_idem (config : value) :
  fee_config (fee_config config) = fee_config config.
Proof.
  unfold fee_config; simpl. now rewrite !or_else_idem.
Qed.

Lemma truthy_fee_config (config : value) : truthy (fee_config config) = true.
Proof.
  reflexivity.
Qed.

(** X13.  Normalising a fee that is already normalised changes nothing,
    for every fee that is not in the legacy shape (its [value] is not an
    object). *)
Theorem sanitizeFeeStructure_idempotent (fee : value) :
  (truthy fee?."value" && typeof_object fee?."value")%bool = false ->
  sanitizeFeeStructure (sanitizeFeeStructure fee) = sanitizeFeeStructure fee.
Proof.
  intros Hlegacy. unfold sanitizeFeeStructure at 2 3.
  rewrite Hlegacy. cbv zeta. simpl (truthy VNull). simpl andb.
  split_ifs; unfold sanitizeFeeStructure;
    repeat (cbn -[fee_config]; rewrite ?truthy_fee_config);
    rewrite ?fee_config_idem; reflexivity.
Qed.

Lemma sanitizeFeeStructure_idempotent_witness :
  (truthy nested_fee?."value" && typeof_object nested_fee?."value")%bool = false
  /\ sanitizeFeeStructure nested_fee
     = VObj [("deposit",
              VObj [("type", VStr "fixed"); ("value", VZ 10); ("min", VZ 0)]);
             ("settlement",
              VObj [("usdt",
                     VObj [("type", VStr "percent"); ("value", VZ 0);
                           ("min", VZ 0)])])]
  /\ sanitizeFeeStructure (sanitizeFeeStructure nested_fee)
     = sanitizeFeeStructure nested_fee.
Proof.
  split; [reflexivity |]. split; [reflexivity |].
  apply sanitizeFeeStructure_idempotent. reflexivity.
Defined.

(** X14.  A fee in the legacy shape, one [type] and a [value] object of
    per-direction numbers with a shared [min], is normalised to what the
    nested shape with the same figures gives, as long as both numbers are
    not zero. *)
Theorem legacy_fee_is_the_nested_fee (type min : value) (deposit withdraw : num) :
  truthy (VNum deposit) = true ->
  truthy (VNum withdraw) = true ->
  sanitizeFeeStructure
    (VObj [("type", type);
           ("value", VObj [("deposit", VNum deposit);
                           ("withdraw", VNum withdraw); ("min", min)])])
  = sanitizeFeeStructure
      (VObj [("deposit",
              VObj [("type", type); ("value", VNum deposit); ("min", min)]);
             ("withdraw",
              VObj [("type", type); ("value", VNum withdraw); ("min", min)])]).
Proof.
  intros Hd Hw.
  destruct deposit as [| d]; [discriminate Hd |].
  destruct withdraw as [| w]; [discriminate Hw |].
  simpl in Hd, Hw.
  unfold sanitizeFeeStructure, fee_config, legacy_config, or_else.
  cbn. rewrite ?Hd, ?Hw. cbn. rewrite ?Hd, ?Hw. reflexivity.
Qed.

Lemma legacy_fee_is_the_nested_fee_witness :
  truthy (VNum (Fin (3 # 2))) = true
  /\ truthy (VNum (Fin (1 # 2))) = true
  /\ sanitizeFeeStructure
       (VObj [("type", VStr "percent");
              ("value", VObj [("deposit", VNum (Fin (3 # 2)));
                              ("withdraw", VNum (Fin (1 # 2)));
                              ("min", VZ 1)])])
     = sanitizeFeeStructure
         (VObj [("deposit", VObj [("type", VStr "percent");
                                  ("value", VNum (Fin (3 # 2)));
                                  ("min", VZ 1)]);
                ("withdraw", VObj [("type", VStr "percent");
                                   ("value", VNum (Fin (1 # 2)));
                                   ("min", VZ 1)])])
  /\ sanitizeFeeStructure legacy_fee
     = VObj [("deposit", VObj [("type", VStr "percent");
                               ("value", VNum (Fin (3 # 2))); ("min", VZ 1)]);
             ("withdraw", VObj [("type", VStr "percent");
                                ("value", VNum (Fin (1 # 2))); ("min", VZ 1)])].
Proof.
  split; [reflexivity |]. split; [reflexivity |].
  split; [| reflexivity].
  exact (legacy_fee_is_the_nested_fee (VStr "percent") (VZ 1)
           (Fin (3 # 2)) (Fin (1 # 2)) eq_refl eq_refl).
Defined.

(** ** The option of a record *)

Lemma lookup_obj_set_same (fs : list (string * value)) (k : string) (v : value) :
  lookup k (obj_set fs k v) = Some v.
Proof.
  induction fs as [| [k0 v0] fs IH]; simpl.
  - now rewrite String.eqb_refl.
  - destruct (String.eqb k0 k) eqn:E; simpl; now rewrite E.
Qed.

(** X15.  The option of a record is the provider's [option] whenever the
    provider has one, the gateway's own being ignored then; without a fee
    it is handed on as it is and the cache is not touched; with a fee it
    keeps every other property, [fee] becomes the normalised fee and
    [feeEstimationTable] the table of that fee, also over a table the
    option brought along. *)
Theorem buildOption_keeps_the_option {host : Host} (providerOption
  gatewayOption : value) (c : FeeTableCache) :
  cache_ok c ->
  let option := providerOption <??> gatewayOption <??> VObj [] in
  (nullish providerOption = false ->
   forall other, buildOption providerOption other c
                 = buildOption providerOption gatewayOption c)
  /\ (truthy option?."fee" = false ->
      buildOption providerOption gatewayOption c = (option, c))
  /\ (truthy option?."fee" = true ->
      exists fs,
        fst (buildOption providerOption gatewayOption c) = VObj fs
        /\ lookup "fee" fs = Some (sanitizeFeeStructure option?."fee")
        /\ lookup "feeEstimationTable" fs
           = Some (fee_table (sanitizeFeeStructure option?."fee"))
        /\ forall k, k <> "fee" -> k <> "feeEstimationTable" ->
                     lookup k fs = lookup k (spread option)).
Proof.
  intros Hc option. split; [| split].
  - intros Hp other. unfold buildOption, coalesce. rewrite Hp. reflexivity.
  - intros Hf. unfold buildOption. fold option. now rewrite Hf.
  - intros Hf. unfold buildOption. fold option. rewrite Hf. simpl negb.
    cbv iota.
    destruct (generateFeeEstimationTable_cached
                (sanitizeFeeStructure option?."fee") c Hc) as (Ht & _).
    destruct (generateFeeEstimationTable _ c) as [t c1]. simpl in Ht. subst t.
    eexists. split; [reflexivity |].
    split; [| split].
    + rewrite lookup_obj_set_other by reflexivity. apply lookup_obj_set_same.
    + apply lookup_obj_set_same.
    + intros k Hk1 Hk2.
      rewrite !lookup_obj_set_other; [reflexivity | |];
        apply String.eqb_neq; congruence.
Qed.

(** On the sample below the provider's option has no fee: the record gets
    that option, and neither the fee nor a table of the gateway's own. *)
Lemma buildOption_keeps_the_option_witness :
  cache_ok []
  /\ exists r c',
       evaluateFilters noon feeless_provider_batch [] = Ok ([r], c')
       /\ r?."option" = VObj [("channel", VStr "QR")]
       /\ c' = [].
Proof.
  split; [exact cache_ok_nil |].
  destruct (buildOption_keeps_the_option
              (VObj [("channel", VStr "QR")])
              (VObj [("fee", VObj [("deposit", percent_fee (3 # 2));
                                   ("withdraw", percent_fee (1 # 2))])])
              [] cache_ok_nil) as (_ & Hnofee & _).
  specialize (Hnofee eq_refl).
  eexists; eexists. split; [vm_compute; reflexivity |].
  split; reflexivity.
Defined.

(** ** Runs compose *)

Lemma Array_filter_app (keep : value -> result bool) (l1 l2 k1 k2 : list value) :
  Array_filter keep l1 = Ok k1 ->
  Array_filter keep l2 = Ok k2 ->
  Array_filter keep (l1 ++ l2) = Ok (k1 ++ k2).
Proof.
  revert k1; induction l1 as [| x l1 IH]; simpl; intros k1 E1 E2.
  - injection E1 as <-. exact E2.
  - inv_bind E1. inv_bind E1. injection E1 as <-.
    rewrite Ha. simpl. rewrite (IH _ Ha0 E2). simpl.
    destruct a; reflexivity.
Qed.

Lemma Array_filter_app_inv (keep : value -> result bool)
  (l1 l2 k : list value) :
  Array_filter keep (l1 ++ l2) = Ok k ->
  exists k1 k2,
    k = k1 ++ k2 /\ Array_filter keep l1 = Ok k1 /\ Array_filter keep l2 = Ok k2.
Proof.
  revert k; induction l1 as [| x l1 IH]; simpl; intros k E.
  - exists [], k. repeat split. exact E.
  - inv_bind E. inv_bind E. injection E as <-.
    destruct (IH _ Ha0) as (k1 & k2 & -> & E1 & E2).
    rewrite Ha, E1. simpl.
    exists (if a then x :: k1 else k1), k2.
    destruct a; repeat split; assumption.
Qed.

Lemma Array_map_app
  (f : value -> FeeTableCache -> result (value * FeeTableCache))
  (l1 l2 o1 o2 : list value) (c c1 c2 : FeeTableCache) :
  Array_map f l1 c = Ok (o1, c1) ->
  Array_map f l2 c1 = Ok (o2, c2) ->
  Array_map f (l1 ++ l2) c = Ok (o1 ++ o2, c2).
Proof.
  revert o1 c; induction l1 as [| x l1 IH]; simpl; intros o1 c E1 E2.
  - injection E1 as <- <-. exact E2.
  - inv_bind E1. inv_bind E1. injection E1 as <- <-.
    rewrite Ha. simpl.
    destruct a0 as [rs c0]; simpl in *.
    rewrite (IH _ _ Ha0 E2). reflexivity.
Qed.

Lemma Array_map_app_inv
  (f : value -> FeeTableCache -> result (value * FeeTableCache))
  (l1 l2 out : list value) (c c2 : FeeTableCache) :
  Array_map f (l1 ++ l2) c = Ok (out, c2) ->
  exists o1 o2 c1,
    out = o1 ++ o2
    /\ Array_map f l1 c = Ok (o1, c1)
    /\ Array_map f l2 c1 = Ok (o2, c2).
Proof.
  revert out c; induction l1 as [| x l1 IH]; simpl; intros out c E.
  - exists [], out, c. repeat split. exact E.
  - inv_bind E. inv_bind E. injection E as <- <-.
    destruct a0 as [rs c0]; simpl in *.
    destruct (IH _ _ Ha0) as (o1 & o2 & c1 & -> & E1 & E2).
    rewrite Ha. simpl. rewrite E1. simpl.
    exists (fst a :: o1), o2, c1. repeat split. exact E2.
Qed.

(** X16.  A run over two lists of gateways put end to end returns exactly
    when the run over the first list and then, from the cache that one
    leaves, the run over the second list both return; its records are
    theirs, in that order.  Nothing is deduplicated or merged. *)
Theorem evaluateFilters_app {host : Host} (now : Clock) (b : BatchDataResponse)
  (l1 l2 : list value) (c c2 : FeeTableCache) (out : list value) :
  evaluateFilters now (with_gateways b (l1 ++ l2)) c = Ok (out, c2)
  <-> exists o1 o2 c1,
        out = o1 ++ o2
        /\ evaluateFilters now (with_gateways b l1) c = Ok (o1, c1)
        /\ evaluateFilters now (with_gateways b l2) c1 = Ok (o2, c2).
Proof.
  unfold evaluateFilters, eligible; simpl. split.
  - intros E.
    destruct (buildProviderMap _ []) as [pm | e]; simpl in *; [| discriminate E].
    inv_bind E.
    destruct (Array_filter_app_inv _ _ _ _ Ha) as (k1 & k2 & -> & E1 & E2).
    destruct (Array_map_app_inv _ _ _ _ _ _ E) as (o1 & o2 & c1 & -> & M1 & M2).
    exists o1, o2, c1. rewrite E1, E2. simpl. repeat split; assumption.
  - intros (o1 & o2 & c1 & -> & R1 & R2).
    destruct (buildProviderMap _ []) as [pm | e]; simpl in *; [| discriminate R1].
    inv_bind R1. inv_bind R2.
    rewrite (Array_filter_app _ _ _ _ _ Ha Ha0). simpl.
    eapply Array_map_app; eassumption.
Qed.

(** ** A null entry *)

Lemma buildProviderMap_null {host : Host} (ps : list value) (m : Map) :
  Exists (fun p => nullish p = true) ps ->
  buildProviderMap ps m = Throw TypeError.
Proof.
  intros H; revert m; induction H as [p ps Hp | p ps _ IH]; simpl; intros m.
  - now rewrite Hp.
  - destruct (nullish p); [reflexivity | apply IH].
Qed.

Lemma Array_filter_null (keep : value -> result bool) (l : list value) :
  (forall g, nullish g = true -> keep g = Throw TypeError) ->
  Exists (fun g => nullish g = true) l ->
  Array_filter keep l = Throw TypeError.
Proof.
  intros Hk H; induction H as [g l Hg | g l _ IH]; simpl.
  - now rewrite (Hk g Hg).
  - destruct (keep g) as [t | []]; simpl; [| reflexivity].
    now rewrite IH.
Qed.

(** X17.  A [null] (or [undefined]) entry among the providers or among the
    gateways makes the whole run raise a [TypeError]: no record is
    returned for the sound entries around it. *)
Theorem null_entry_aborts_the_run {host : Host} (now : Clock)
  (b : BatchDataResponse) (c : FeeTableCache) :
  Exists (fun p => nullish p = true) (or_default (providers b) [])
  \/ Exists (fun g => nullish g = true) (or_default (gateways b) []) ->
  evaluateFilters now b c = Throw TypeError.
Proof.
  intros [Hp | Hg]; unfold evaluateFilters.
  - now rewrite (buildProviderMap_null _ [] Hp).
  - destruct (buildProviderMap _ []) as [pm | []]; simpl; [| reflexivity].
    unfold eligible. rewrite Array_filter_null; [reflexivity | | exact Hg].
    intros g Hn. unfold applyAllFilters, checkStatus. now rewrite Hn.
Qed.

Lemma null_entry_aborts_the_run_witness :
  Exists (fun g => nullish g = true)
    (or_default (gateways null_gateway_batch) [])
  /\ evaluateFilters noon null_gateway_batch [] = Throw TypeError.
Proof.
  assert (H : Exists (fun g => nullish g = true)
                (or_default (gateways null_gateway_batch) [])).
  { right. left. reflexivity. }
  split; [exact H |].
  exact (null_entry_aborts_the_run noon null_gateway_batch [] (or_intror H)).
Defined.

Lemma evaluateFilters_app_witness :
  exists o1 o2 c1,
    sample_out = o1 ++ o2
    /\ evaluateFilters noon
         (with_gateways sample_batch
            (firstn 2 (or_default (gateways sample_batch) []))) [] = Ok (o1, c1)
    /\ evaluateFilters noon
         (with_gateways sample_batch
            (skipn 2 (or_default (gateways sample_batch) []))) c1
       = Ok (o2, sample_cache).
Proof.
  apply (evaluateFilters_app noon sample_batch
           (firstn 2 (or_default (gateways sample_batch) []))
           (skipn 2 (or_default (gateways sample_batch) []))).
  exact sample_run.
Defined.

(** ** Groups and descriptions *)

(** X18.  In every record of a result [isGroup] tells whether the gateway
    has a [groupId] (its own [isGroup] is not read).  A gateway with a
    [groupId] gets the group of that id, named after the id, and, unless
    it says otherwise itself, the type ["group"] and the description
    ["Group <provider> gateway"]; one without gets its own [group] or
    [null], the type ["individual"] and ["Individual <provider> gateway"]. *)
Theorem records_classify_groups {host : Host} (now : Clock)
  (b : BatchDataResponse) (c c' : FeeTableCache) (out : list value) :
  evaluateFilters now b c = Ok (out, c') ->
  exists providerMap kept,
    providerMapOf b = Ok providerMap
    /\ eligible now b providerMap = Ok kept
    /\ Forall2
         (fun g r =>
            exists name,
              g?."provider" = VStr name
              /\ r?."isGroup" = VBool (truthy g?."groupId")
              /\ r?."isInGroup"
                 = first_present [g?."isInGroup"] (VBool (truthy g?."groupId"))
              /\ if truthy g?."groupId" then
                   r?."group" = VObj [("groupId", g?."groupId");
                                      ("groupName", g?."groupId")]
                   /\ r?."type" = first_present [g?."type"] (VStr "group")
                   /\ (truthy g?."description" = false ->
                       r?."description"
                       = VStr ("Group " ++ name ++ " gateway"))
                 else
                   r?."group" = first_present [g?."group"] VNull
                   /\ r?."type" = first_present [g?."type"] (VStr "individual")
                   /\ (truthy g?."description" = false ->
                       r?."description"
                       = VStr ("Individual " ++ name ++ " gateway")))
         kept out.
Proof.
  intros E.
  destruct (evaluateFilters_inv _ _ _ _ _ E) as (pm & kept & Hpm & Hk & Hout).
  exists pm, kept. repeat split; try assumption.
  eapply Forall2_impl; [| exact Hout].
  intros g r Hg (c1 & c2 & Hgr).
  apply (eligible_spec _ _ _ _ Hk) in Hg. destruct Hg as (_ & Hp).
  apply passes_true_iff in Hp. destruct Hp as (_ & _ & Hpr & _).
  destruct (checkProvider_true_inv _ _ Hpr) as (n & Hn & _).
  exists n. split; [exact Hn |].
  unfold mapToResponse in Hgr. destruct (nullish g); [discriminate |].
  destruct (buildOption _ _ c1) as [opt c3]. injection Hgr as <- _.
  rewrite Hn. simpl.
  split; [reflexivity |]. split; [reflexivity |].
  destruct (truthy g?."groupId"); (split; [reflexivity |]);
    (split; [reflexivity |]); intros Hd; unfold or_else; now rewrite Hd.
Qed.

Lemma records_classify_groups_witness :
  exists out c',
    evaluateFilters noon group_batch [] = Ok (out, c')
    /\ map (fun r => (r?."type", r?."description")) out
       = [ (VStr "individual", VStr "Individual provider-a gateway");
           (VStr "group", VStr "Group provider-b gateway") ]
    /\ exists providerMap kept,
         providerMapOf group_batch = Ok providerMap
         /\ eligible noon group_batch providerMap = Ok kept.
Proof.
  destruct (evaluateFilters noon group_batch []) as [[out c'] | e] eqn:E;
    [| vm_compute in E; discriminate E].
  exists out, c'. split; [reflexivity |].
  destruct (records_classify_groups noon group_batch [] c' out E)
    as (pm & kept & Hpm & Hk & _).
  split; [| exists pm, kept; split; assumption].
  vm_compute in E. injection E as <- <-. reflexivity.
Defined.


(** ** The keys of the store *)

Lemma list_ascii_of_string_app (s t : string) :
  list_ascii_of_string (s ++ t)
  = (list_ascii_of_string s ++ list_ascii_of_string t)%list.
Proof.
  induction s as [| ch s IH]; simpl; [reflexivity | now rewrite IH].
Qed.

Lemma append_inj_l (s1 s2 t : string) :
  (s1 ++ t)%string = (s2 ++ t)%string -> s1 = s2.
Proof.
  intros E. apply (f_equal list_ascii_of_string) in E.
  rewrite !list_ascii_of_string_app in E. apply app_inv_tail in E.
  rewrite <- (string_of_list_ascii_of_string s1),
          <- (string_of_list_ascii_of_string s2).
  now rewrite E.
Qed.

Lemma append_differs (n : nat) (s1 s2 t1 t2 : string) :
  (n <= String.length t1)%nat -> (n <= String.length t2)%nat ->
  firstn n (rev (list_ascii_of_string t1))
  <> firstn n (rev (list_ascii_of_string t2)) ->
  (s1 ++ t1)%string <> (s2 ++ t2)%string.
Proof.
  intros H1 H2 Hne E. apply Hne.
  apply (f_equal (fun s => firstn n (rev (list_ascii_of_string s)))) in E.
  rewrite !list_ascii_of_string_app, !rev_app_distr in E.
  rewrite !firstn_app in E.
  assert (L : forall t, List.length (rev (list_ascii_of_string t))
                        = String.length t).
  { intros t. rewrite length_rev.
    induction t as [| ch t IH]; simpl; [reflexivity | now rewrite IH]. }
  rewrite !L in E.
  replace (n - String.length t1)%nat with 0%nat in E by lia.
  replace (n - String.length t2)%nat with 0%nat in E by lia.
  simpl in E. now rewrite !app_nil_r in E.
Qed.

Lemma key_eqb_same_tier (site1 site2 tier : string) :
  String.eqb ("gateway-list:" ++ site1 ++ tier)
             ("gateway-list:" ++ site2 ++ tier)
  = String.eqb site1 site2.
Proof.
  destruct (String.eqb_spec site1 site2) as [-> | Hne].
  - apply String.eqb_refl.
  - apply String.eqb_neq. intros E. apply Hne.
    simpl in E. injection E as E. exact (append_inj_l _ _ _ E).
Qed.

Lemma key_eqb_other_tier (n : nat) (site1 site2 tier1 tier2 : string) :
  (n <= String.length tier1)%nat -> (n <= String.length tier2)%nat ->
  firstn n (rev (list_ascii_of_string tier1))
  <> firstn n (rev (list_ascii_of_string tier2)) ->
  String.eqb ("gateway-list:" ++ site1 ++ tier1)
             ("gateway-list:" ++ site2 ++ tier2) = false.
Proof.
  intros H1 H2 Hne. apply String.eqb_neq. intros E.
  simpl in E. injection E as E.
  exact (append_differs n _ _ _ _ H1 H2 Hne E).
Qed.

(** X19.  The keys of the store never collide: two sites share a primary,
    a stale or a last-update key only when they are the same site, and no
    primary key is a stale or a last-update key, nor a stale key a
    last-update key, whatever the names of the sites. *)
Theorem cache_keys_never_collide (site1 site2 : string) :
  String.eqb (getPrimaryKey site1) (getPrimaryKey site2)
  = String.eqb site1 site2
  /\ String.eqb (getStaleKey site1) (getStaleKey site2)
     = String.eqb site1 site2
  /\ String.eqb (lastUpdateKey site1) (lastUpdateKey site2)
     = String.eqb site1 site2
  /\ String.eqb (getPrimaryKey site1) (getStaleKey site2) = false
  /\ String.eqb (getPrimaryKey site1) (lastUpdateKey site2) = false
  /\ String.eqb (getStaleKey site1) (lastUpdateKey site2) = false.
Proof.
  unfold getPrimaryKey, getStaleKey, lastUpdateKey.
  split; [apply key_eqb_same_tier |].
  split; [apply key_eqb_same_tier |].
  split; [apply key_eqb_same_tier |].
  split; [| split].
  - apply (key_eqb_other_tier 1); simpl; try lia. discriminate.
  - apply (key_eqb_other_tier 1); simpl; try lia. discriminate.
  - apply (key_eqb_other_tier 2); simpl; try lia. discriminate.
Qed.


Lemma primary_key_eqb (a b : string) :
  String.eqb (getPrimaryKey a) (getPrimaryKey b) = String.eqb a b.
Proof. apply key_eqb_same_tier. Qed.

Lemma stale_key_eqb (a b : string) :
  String.eqb (getStaleKey a) (getStaleKey b) = String.eqb a b.
Proof. apply key_eqb_same_tier. Qed.

Lemma last_key_eqb (a b : string) :
  String.eqb (lastUpdateKey a) (lastUpdateKey b) = String.eqb a b.
Proof. apply key_eqb_same_tier. Qed.

Lemma primary_stale_eqb (a b : string) :
  String.eqb (getPrimaryKey a) (getStaleKey b) = false.
Proof. apply (key_eqb_other_tier 1); simpl; try lia. discriminate. Qed.

Lemma stale_primary_eqb (a b : string) :
  String.eqb (getStaleKey a) (getPrimaryKey b) = false.
Proof. rewrite String.eqb_sym. apply primary_stale_eqb. Qed.

Lemma primary_last_eqb (a b : string) :
  String.eqb (getPrimaryKey a) (lastUpdateKey b) = false.
Proof. apply (key_eqb_other_tier 1); simpl; try lia. discriminate. Qed.

Lemma last_primary_eqb (a b : string) :
  String.eqb (lastUpdateKey a) (getPrimaryKey b) = false.
Proof. rewrite String.eqb_sym. apply primary_last_eqb. Qed.

Lemma stale_last_eqb (a b : string) :
  String.eqb (getStaleKey a) (lastUpdateKey b) = false.
Proof. apply (key_eqb_other_tier 2); simpl; try lia. discriminate. Qed.

Lemma last_stale_eqb (a b : string) :
  String.eqb (lastUpdateKey a) (getStaleKey b) = false.
Proof. rewrite String.eqb_sym. apply stale_last_eqb. Qed.

Ltac compare_keys :=
  rewrite ?primary_key_eqb, ?stale_key_eqb, ?last_key_eqb,
    ?primary_stale_eqb, ?stale_primary_eqb, ?primary_last_eqb,
    ?last_primary_eqb, ?stale_last_eqb, ?last_stale_eqb.

(** ** The store *)

Lemma lookup_assoc_set {A : Type} (l : list (string * A)) (k k' : string)
  (a : A) :
  lookup k' (assoc_set l k a)
  = if String.eqb k k' then Some a else lookup k' l.
Proof.
  induction l as [| [k0 a0] l IH]; simpl; [reflexivity |].
  destruct (String.eqb_spec k0 k) as [-> | Hne]; simpl.
  - destruct (String.eqb k k'); reflexivity.
  - rewrite IH. destruct (String.eqb_spec k0 k') as [-> | Hne'].
    + apply String.eqb_neq in Hne. rewrite String.eqb_sym in Hne.
      now rewrite Hne.
    + reflexivity.
Qed.

Lemma assoc_set_keys {A : Type} (l : list (string * A)) (k : string) (a : A) :
  map fst (assoc_set l k a)
  = if existsb (String.eqb k) (map fst l) then map fst l
    else (map fst l ++ [k])%list.
Proof.
  induction l as [| [k0 a0] l IH]; simpl; [reflexivity |].
  rewrite (String.eqb_sym k k0).
  destruct (String.eqb k0 k); simpl; [reflexivity |].
  rewrite IH. destruct (existsb _ _); reflexivity.
Qed.

Lemma assoc_set_NoDup {A : Type} (l : list (string * A)) (k : string) (a : A) :
  NoDup (map fst l) -> NoDup (map fst (assoc_set l k a)).
Proof.
  intros H. rewrite assoc_set_keys.
  destruct (existsb _ _) eqn:E; [exact H |].
  apply NoDup_app; [exact H | repeat constructor; intros [] |].
  intros x Hx [<- | []].
  assert (existsb (String.eqb k) (map fst l) = true); [| congruence].
  apply existsb_exists. exists k. split; [exact Hx | apply String.eqb_refl].
Qed.

Lemma lookup_absent {A : Type} (l : list (string * A)) (k : string) :
  ~ In k (map fst l) -> lookup k l = None.
Proof.
  induction l as [| [k0 a0] l IH]; simpl; [reflexivity |].
  intros H. destruct (String.eqb_spec k0 k) as [-> | _].
  - exfalso. apply H. now left.
  - apply IH. intros Hin. apply H. now right.
Qed.

Lemma redis_elapse_keys (seconds : Z) (r : Redis) (k : string) :
  In k (map fst (redis_elapse seconds r)) -> In k (map fst r).
Proof.
  induction r as [| [k0 e] r IH]; simpl; [trivial |].
  destruct (expiry e) as [t |]; simpl.
  - destruct (seconds <? t)%Z; simpl.
    + intros [-> | H]; [now left | right; auto].
    + intros H; right; auto.
  - intros [-> | H]; [now left | right; auto].
Qed.

Lemma redis_get_elapse (seconds : Z) (r : Redis) (k : string) :
  NoDup (map fst r) ->
  redis_get (redis_elapse seconds r) k
  = match lookup k r with
    | Some e => if alive seconds e then Some (payload e) else None
    | None => None
    end.
Proof.
  unfold redis_get.
  induction r as [| [k0 e] r IH]; simpl; [reflexivity |].
  intros H. inversion H as [| ? ? Hnot Hrest]; subst.
  specialize (IH Hrest). unfold alive in *.
  destruct e as [p [t |]]; simpl.
  - destruct (seconds <? t)%Z eqn:Elt; simpl.
    + destruct (String.eqb k0 k); simpl; [now rewrite Elt | exact IH].
    + destruct (String.eqb_spec k0 k) as [-> | _]; simpl;
        [rewrite Elt | exact IH].
      rewrite lookup_absent; [reflexivity |].
      intros Hin. apply Hnot. eapply redis_elapse_keys; eassumption.
  - destruct (String.eqb k0 k); [reflexivity | exact IH].
Qed.

Section ServedLists.
Context {host : Host} {json : Json}.

Lemma parse_or_null_empty : parse_or_null "" = VNull.
Proof. unfold parse_or_null. now rewrite JSON_parse_empty. Qed.

(** What [get] returns is decided by the two entries of the site. *)
Lemma CacheService_get_entries (r : Redis) (site : string) :
  CacheService_get r site
  = match redis_get r (getPrimaryKey site) with
    | Some (String ch primary) => parse_or_null (String ch primary)
    | _ =>
        match redis_get r (getStaleKey site) with
        | Some stale => parse_or_null stale
        | None => VNull
        end
    end.
Proof.
  unfold CacheService_get.
  destruct (redis_get r (getPrimaryKey site)) as [[| ch p] |];
    try reflexivity;
    destruct (redis_get r (getStaleKey site)) as [[| ch s] |];
    try reflexivity; now rewrite parse_or_null_empty.
Qed.

Lemma CacheService_get_ext (r1 r2 : Redis) (site : string) :
  redis_get r1 (getPrimaryKey site) = redis_get r2 (getPrimaryKey site) ->
  redis_get r1 (getStaleKey site) = redis_get r2 (getStaleKey site) ->
  CacheService_get r1 site = CacheService_get r2 site.
Proof. unfold CacheService_get. now intros -> ->. Qed.

Lemma CacheService_set_returns (config : CacheConfig) (r : Redis)
  (site : string) (data : value) :
  (0 < primaryTtl config)%Z -> (0 < staleTtl config)%Z ->
  CacheService_set config r site data
  = (assoc_set
       (assoc_set r (getPrimaryKey site)
          {| payload := JSON_stringify data;
             expiry := Some (primaryTtl config) |})
       (getStaleKey site)
       {| payload := JSON_stringify data; expiry := Some (staleTtl config) |},
     true).
Proof.
  intros Hp Hs. unfold CacheService_set, redis_setex.
  apply Z.ltb_lt in Hp, Hs. now rewrite Hp, Hs.
Qed.

Lemma CacheService_set_inv (config : CacheConfig) (r r' : Redis)
  (site : string) (data : value) :
  CacheService_set config r site data = (r', true) ->
  (0 < primaryTtl config)%Z /\ (0 < staleTtl config)%Z.
Proof.
  unfold CacheService_set, redis_setex.
  destruct (0 <? primaryTtl config)%Z eqn:Ep; [| discriminate].
  destruct (0 <? staleTtl config)%Z eqn:Es; [| discriminate].
  intros _. split; now apply Z.ltb_lt.
Qed.

(** X20.  What [set] stores, [get] reads back: with positive lifetimes
    [set] returns, [get] for the same site then parses the text that was
    stored, and nothing changes for any other site or for any last-update
    entry. *)
Theorem set_then_get (config : CacheConfig) (r : Redis) (site : string)
  (data : value) :
  (0 < primaryTtl config)%Z -> (0 < staleTtl config)%Z ->
  exists r',
    CacheService_set config r site data = (r', true)
    /\ CacheService_get r' site = parse_or_null (JSON_stringify data)
    /\ (forall other, other <> site ->
          CacheService_get r' other = CacheService_get r other)
    /\ (forall any,
          redis_get r' (lastUpdateKey any) = redis_get r (lastUpdateKey any)).
Proof.
  intros Hp Hs. eexists. split; [apply CacheService_set_returns; assumption |].
  split; [| split].
  - rewrite CacheService_get_entries. unfold redis_get.
    rewrite !lookup_assoc_set. compare_keys.
    rewrite !String.eqb_refl. simpl.
    destruct (JSON_stringify data); [| reflexivity].
    now rewrite parse_or_null_empty.
  - intros other Hne. apply String.eqb_neq in Hne.
    rewrite String.eqb_sym in Hne.
    apply CacheService_get_ext; unfold redis_get;
      rewrite !lookup_assoc_set; compare_keys; now rewrite ?Hne.
  - intros any. unfold redis_get. rewrite !lookup_assoc_set.
    now compare_keys.
Qed.

(** X21.  A stored list is served for as long as the longer of the two
    lifetimes: [seconds] after a [set] that returned, [get] still parses
    the stored text while [seconds] is below the larger of [primaryTtl] and
    [staleTtl], the stale entry standing in once the primary one has
    expired, and returns [null] from then on. *)
Theorem stored_list_lifetime (config : CacheConfig) (r r' : Redis)
  (site : string) (data : value) (seconds : Z) :
  NoDup (map fst r) ->
  CacheService_set config r site data = (r', true) ->
  CacheService_get (redis_elapse seconds r') site
  = if (seconds <? Z.max (primaryTtl config) (staleTtl config))%Z
    then parse_or_null (JSON_stringify data)
    else VNull.
Proof.
  intros Hr E. destruct (CacheService_set_inv _ _ _ _ _ E) as (Hp & Hs).
  rewrite (CacheService_set_returns _ r site data Hp Hs) in E.
  injection E as <-.
  rewrite CacheService_get_entries.
  rewrite !redis_get_elapse by (do 2 apply assoc_set_NoDup; exact Hr).
  rewrite !lookup_assoc_set. compare_keys.
  rewrite !String.eqb_refl. unfold alive; simpl.
  destruct (seconds <? primaryTtl config)%Z eqn:E1;
    destruct (seconds <? staleTtl config)%Z eqn:E2;
    destruct (seconds <? Z.max _ _)%Z eqn:E3;
    try (apply Z.ltb_lt in E1); try (apply Z.ltb_ge in E1);
    try (apply Z.ltb_lt in E2); try (apply Z.ltb_ge in E2);
    try (apply Z.ltb_lt in E3); try (apply Z.ltb_ge in E3);
    try lia;
    try reflexivity;
    destruct (JSON_stringify data); try reflexivity;
    now rewrite parse_or_null_empty.
Qed.

End ServedLists.

Lemma set_then_get_witness :
  (0 < primaryTtl example_config)%Z
  /\ (0 < staleTtl example_config)%Z
  /\ exists r',
       CacheService_set example_config [] "alpha"
         (VObj [("gateways", VArr [VStr "gw-001"]); ("site", VStr "alpha")])
       = (r', true)
       /\ CacheService_get r' "alpha"
          = VObj [("gateways", VArr [VStr "gw-001"]); ("site", VStr "alpha")]
       /\ CacheService_get r' "beta" = VNull.
Proof.
  assert (Hp : (0 < primaryTtl example_config)%Z) by reflexivity.
  assert (Hs : (0 < staleTtl example_config)%Z) by reflexivity.
  split; [exact Hp |]. split; [exact Hs |].
  destruct (set_then_get example_config [] "alpha"
              (VObj [("gateways", VArr [VStr "gw-001"]);
                     ("site", VStr "alpha")]) Hp Hs)
    as (r' & E & G & O & _).
  exists r'. split; [exact E |]. split.
  - rewrite G. reflexivity.
  - rewrite (O "beta"); [reflexivity | discriminate].
Defined.

Lemma stored_list_lifetime_witness :
  NoDup (map fst ([] : Redis))
  /\ exists r',
       CacheService_set example_config [] "alpha"
         (VObj [("gateways", VArr [VStr "gw-001"])]) = (r', true)
       /\ CacheService_get (redis_elapse 31 r') "alpha"
          = VObj [("gateways", VArr [VStr "gw-001"])]
       /\ CacheService_get (redis_elapse 3600 r') "alpha" = VNull.
Proof.
  split; [constructor |].
  eexists. split; [reflexivity |]. split.
  - rewrite (stored_list_lifetime example_config [] _ "alpha"
               (VObj [("gateways", VArr [VStr "gw-001"])]) 31
               (NoDup_nil _) eq_refl).
    reflexivity.
  - rewrite (stored_list_lifetime example_config [] _ "alpha"
               (VObj [("gateways", VArr [VStr "gw-001"])]) 3600
               (NoDup_nil _) eq_refl).
    reflexivity.
Defined.


(** ** The worker and the handler *)

Section Refresh.
Context {host : Host} {json : Json}.

Lemma processSite_store (config : CacheConfig) (now : Clock)
  (timestamp : string) (nowMs : Z) (fetched : option BatchDataResponse)
  (site : string) (w : Worker) (key : string) :
  redis_get
    (worker_redis (processSite config now timestamp nowMs fetched site w)) key
  = match fresh_data now timestamp fetched site (worker_filter w) with
    | None => redis_get (worker_redis w) key
    | Some data =>
        written config site (JSON_stringify data) nowMs key
          (redis_get (worker_redis w) key)
    end.
Proof.
  unfold processSite, fresh_data, written.
  destruct fetched as [b |]; [| reflexivity].
  destruct (evaluateFilters now b (worker_filter w)) as [[out c'] | e];
    [| reflexivity].
  unfold CacheService_set, redis_setex, CacheService_setLastUpdate, redis_set.
  destruct (0 <? primaryTtl config)%Z; [| reflexivity].
  destruct (0 <? staleTtl config)%Z; cbv beta iota zeta;
    cbn [worker_redis]; unfold redis_get; rewrite !lookup_assoc_set.
  - destruct (String.eqb (lastUpdateKey site) key); [reflexivity |].
    destruct (String.eqb (getStaleKey site) key); [reflexivity |].
    destruct (String.eqb (getPrimaryKey site) key); reflexivity.
  - destruct (String.eqb (getPrimaryKey site) key); reflexivity.
Qed.

Lemma processSite_filter (config : CacheConfig) (now : Clock)
  (timestamp : string) (nowMs : Z) (fetched : option BatchDataResponse)
  (site : string) (w : Worker) :
  cache_ok (worker_filter w) ->
  cache_ok
    (worker_filter (processSite config now timestamp nowMs fetched site w)).
Proof.
  intros Hw. unfold processSite.
  destruct fetched as [b |]; [| exact Hw].
  destruct (evaluateFilters now b (worker_filter w)) as [[out c'] | e] eqn:E;
    [| exact Hw].
  pose proof (evaluateFilters_cache_ok _ _ _ _ _ Hw E) as Hc.
  destruct (CacheService_set _ _ _ _) as [r []]; exact Hc.
Qed.

Lemma fresh_data_from_any_cache (now : Clock) (timestamp : string)
  (fetched : option BatchDataResponse) (site : string)
  (c1 c2 : FeeTableCache) :
  cache_ok c1 -> cache_ok c2 ->
  fresh_data now timestamp fetched site c1
  = fresh_data now timestamp fetched site c2.
Proof.
  intros H1 H2. unfold fresh_data.
  destruct fetched as [b |]; [| reflexivity].
  unfold evaluateFilters.
  destruct (buildProviderMap _ []) as [pm | e]; simpl; [| reflexivity].
  destruct (eligible now b pm) as [kept | e] eqn:Ek; simpl; [| reflexivity].
  destruct (Array_map_total
              (fun g => mapToResponse g (or_default (balances b) []) pm)
              kept c1) as (out & c1' & E).
  { intros g c0 Hg. apply mapToResponse_total.
    eapply kept_not_nullish; eassumption. }
  destruct (Array_map_cached _ _ _ _ _ _ c2 H1 H2 E) as (c2' & E2 & _).
  now rewrite E, E2.
Qed.

Lemma v3_gateway_ext (r1 r2 : Redis) (body : value) :
  (forall key, redis_get r1 key = redis_get r2 key) ->
  v3_gateway r1 body = v3_gateway r2 body.
Proof.
  intros H. unfold v3_gateway.
  destruct (nullish body); [reflexivity |].
  destruct (body?."site") as [| | | | [| ch name] | |]; try reflexivity.
  now rewrite (CacheService_get_ext r1 r2 (String ch name) (H _) (H _)).
Qed.

Lemma site_of_body (body : value) (site : string) :
  body?."site" = VStr site -> nullish body = false.
Proof. destruct body; simpl; intros E; try discriminate; reflexivity. Qed.

(** X22.  A site that was processed is served: when the run returns records
    and both lifetimes are positive, [processSite] keeps the new fee table
    cache, stamps the last update, and a request for the site is then
    answered with status 200 and the gateways and the timestamp that were
    stored, read back from their JSON text.  The stored statistics never
    count more filtered gateways than gateways, and the error limit they
    document is the one the filter applies. *)
Theorem processed_site_is_served (config : CacheConfig) (now : Clock)
  (timestamp : string) (nowMs : Z) (b : BatchDataResponse) (site : string)
  (w : Worker) (out : list value) (c' : FeeTableCache)
  (fields : list (string * value)) (body : value) :
  (0 < primaryTtl config)%Z -> (0 < staleTtl config)%Z ->
  site <> "" ->
  body?."site" = VStr site ->
  evaluateFilters now b (worker_filter w) = Ok (out, c') ->
  JSON_parse (JSON_stringify (cacheData b out timestamp site))
  = Some (VObj fields) ->
  let w' := processSite config now timestamp nowMs (Some b) site w in
  worker_filter w' = c'
  /\ redis_get (worker_redis w') (lastUpdateKey site)
     = Some (Z_toString nowMs)
  /\ v3_gateway (worker_redis w') body
     = Replied 200
         (VObj [("success", VBool true);
                ("data",
                 VObj [("gateways", (VObj fields)?."gateways" <||> VArr []);
                       ("cachedAt", (VObj fields)?."timestamp" <||> VNull);
                       ("site", VStr site)])])
  /\ exists total filtered : nat,
       (cacheData b out timestamp site)?."stats"
       = VObj [("total", VZ (Z.of_nat total));
               ("filtered", VZ (Z.of_nat filtered));
               ("errorLimit", VNum ERROR_LIMIT)]
       /\ (filtered <= total)%nat.
Proof.
  intros Hp Hs Hsite Hbody E Hjson w'.
  assert (Hdata : fresh_data now timestamp (Some b) site (worker_filter w)
                  = Some (cacheData b out timestamp site)).
  { unfold fresh_data. now rewrite E. }
  assert (Hget : forall key,
             redis_get (worker_redis w') key
             = written config site
                 (JSON_stringify (cacheData b out timestamp site)) nowMs key
                 (redis_get (worker_redis w) key)).
  { intros key. unfold w'. now rewrite processSite_store, Hdata. }
  assert (Hp' := proj2 (Z.ltb_lt _ _) Hp).
  assert (Hs' := proj2 (Z.ltb_lt _ _) Hs).
  split; [| split; [| split]].
  - unfold w', processSite. rewrite E.
    now rewrite (CacheService_set_returns _ _ _ _ Hp Hs).
  - rewrite Hget. unfold written. now rewrite Hp', Hs', String.eqb_refl.
  - unfold v3_gateway. rewrite (site_of_body _ _ Hbody), Hbody.
    destruct site as [| ch name]; [now elim Hsite |].
    rewrite CacheService_get_entries, !Hget. unfold written.
    rewrite Hp', Hs'. compare_keys. rewrite !String.eqb_refl.
    destruct (JSON_stringify _) as [| ch' text] eqn:Etext.
    + rewrite JSON_parse_empty in Hjson. discriminate.
    + unfold parse_or_null. rewrite Hjson. reflexivity.
  - exists (List.length (or_default (gateways b) [])), (List.length out).
    split; [reflexivity |].
    destruct (evaluateFilters_inv _ _ _ _ _ E) as (pm & kept & _ & Hk & Hout).
    rewrite <- (Forall2_length_eq _ _ _ Hout).
    apply Subseq_length. exact (proj1 (eligible_spec _ _ _ _ Hk)).
Qed.

(** X23.  Processing a site touches that site only: whatever the fetch and
    the run give, a request that names another site, or no site, is
    answered after [processSite] as it was before. *)
Theorem processSite_touches_one_site (config : CacheConfig) (now : Clock)
  (timestamp : string) (nowMs : Z) (fetched : option BatchDataResponse)
  (site : string) (w : Worker) (body : value) :
  body?."site" <> VStr site ->
  v3_gateway
    (worker_redis (processSite config now timestamp nowMs fetched site w)) body
  = v3_gateway (worker_redis w) body.
Proof.
  intros Hne. unfold v3_gateway.
  destruct (nullish body); [reflexivity |].
  destruct (body?."site") as [| | | | [| ch name] | |]; try reflexivity.
  assert (Hs : String.eqb site (String ch name) = false).
  { apply String.eqb_neq. intros ->. now apply Hne. }
  rewrite (CacheService_get_ext _ (worker_redis w) (String ch name));
    [reflexivity | |];
    rewrite processSite_store;
    destruct (fresh_data _ _ _ _ _); try reflexivity;
    unfold written; compare_keys; rewrite Hs;
    destruct (0 <? primaryTtl config)%Z, (0 <? staleTtl config)%Z;
    reflexivity.
Qed.

(** X24.  A refresh that fails leaves no trace: when the fetch fails, or the
    snapshot holds a [null] entry among its providers or its gateways,
    [processSite] returns normally and the store and the fee table cache
    are what they were, so the list stored before is still the one
    served. *)
Theorem failed_refresh_leaves_no_trace (config : CacheConfig) (now : Clock)
  (timestamp : string) (nowMs : Z) (fetched : option BatchDataResponse)
  (site : string) (w : Worker) :
  (forall b, fetched = Some b ->
     Exists (fun p => nullish p = true) (or_default (providers b) [])
     \/ Exists (fun g => nullish g = true) (or_default (gateways b) [])) ->
  processSite config now timestamp nowMs fetched site w = w.
Proof.
  intros H. unfold processSite.
  destruct fetched as [b |]; [| reflexivity].
  assert (E : evaluateFilters now b (worker_filter w) = Throw TypeError).
  { destruct (H b eq_refl) as [Hp | Hg]; unfold evaluateFilters.
    - now rewrite (buildProviderMap_null _ [] Hp).
    - destruct (buildProviderMap _ []) as [pm | []]; simpl; [| reflexivity].
      unfold eligible. rewrite Array_filter_null; [reflexivity | | exact Hg].
      intros g Hn. unfold applyAllFilters, checkStatus. now rewrite Hn. }
  now rewrite E.
Qed.

(** X25.  Two different sites can be processed in either order: from a
    sound fee table cache the store answers every [GET], and the handler
    every request, the same way after the one order as after the other. *)
Theorem sites_in_either_order (config : CacheConfig) (now1 now2 : Clock)
  (timestamp1 timestamp2 : string) (nowMs1 nowMs2 : Z)
  (fetched1 fetched2 : option BatchDataResponse) (site1 site2 : string)
  (w : Worker) :
  site1 <> site2 ->
  cache_ok (worker_filter w) ->
  let first := processSite config now1 timestamp1 nowMs1 fetched1 site1 in
  let second := processSite config now2 timestamp2 nowMs2 fetched2 site2 in
  (forall key,
     redis_get (worker_redis (second (first w))) key
     = redis_get (worker_redis (first (second w))) key)
  /\ (forall body,
        v3_gateway (worker_redis (second (first w))) body
        = v3_gateway (worker_redis (first (second w))) body).
Proof.
  intros Hne Hw first second.
  assert (Hkeys : forall key,
             redis_get (worker_redis (second (first w))) key
             = redis_get (worker_redis (first (second w))) key).
  { intros key. unfold first, second. rewrite !processSite_store.
    rewrite (fresh_data_from_any_cache now2 timestamp2 fetched2 site2
               (worker_filter (processSite config now1 timestamp1 nowMs1
                                 fetched1 site1 w))
               (worker_filter w))
      by (try apply processSite_filter; exact Hw).
    rewrite (fresh_data_from_any_cache now1 timestamp1 fetched1 site1
               (worker_filter (processSite config now2 timestamp2 nowMs2
                                 fetched2 site2 w))
               (worker_filter w))
      by (try apply processSite_filter; exact Hw).
    destruct (fresh_data now1 _ _ _ _) as [d1 |];
      destruct (fresh_data now2 _ _ _ _) as [d2 |]; try reflexivity.
    unfold written.
    destruct (0 <? primaryTtl config)%Z; [| reflexivity].
    assert (H12 : String.eqb site1 site2 = false)
      by now apply String.eqb_neq.
    assert (H21 : String.eqb site2 site1 = false)
      by (rewrite String.eqb_sym; exact H12).
    destruct (0 <? staleTtl config)%Z.
    - destruct (String.eqb_spec (lastUpdateKey site2) key) as [<- | _];
        [compare_keys; now rewrite H12 |].
      destruct (String.eqb_spec (getStaleKey site2) key) as [<- | _];
        [compare_keys; now rewrite H12 |].
      destruct (String.eqb_spec (getPrimaryKey site2) key) as [<- | _];
        [compare_keys; now rewrite H12 |].
      reflexivity.
    - destruct (String.eqb_spec (getPrimaryKey site2) key) as [<- | _];
        [compare_keys; now rewrite H12 |].
      reflexivity. }
  split; [exact Hkeys |].
  intros body. apply v3_gateway_ext. exact Hkeys.
Qed.

End Refresh.


Lemma processed_site_is_served_witness :
  (0 < primaryTtl example_config)%Z
  /\ (0 < staleTtl example_config)%Z
  /\ evaluateFilters noon sample_batch (worker_filter fresh_worker)
     = Ok (sample_out, sample_cache)
  /\ v3_gateway
       (worker_redis
          (processSite example_config noon sample_stamp sample_nowMs
             (Some sample_batch) "alpha" fresh_worker))
       (VObj [("site", VStr "alpha")])
     = Replied 200
         (VObj [("success", VBool true);
                ("data",
                 VObj [("gateways", sample_served);
                       ("cachedAt", VStr sample_stamp);
                       ("site", VStr "alpha")])]).
Proof.
  assert (Hp : (0 < primaryTtl example_config)%Z) by reflexivity.
  assert (Hs : (0 < staleTtl example_config)%Z) by reflexivity.
  assert (Hsite : "alpha" <> "") by discriminate.
  assert (Hjson : JSON_parse
                    (JSON_stringify
                       (cacheData sample_batch sample_out sample_stamp "alpha"))
                  = Some (VObj sample_cached_fields))
    by (vm_compute; reflexivity).
  split; [exact Hp |]. split; [exact Hs |]. split; [exact sample_run |].
  destruct (processed_site_is_served example_config noon sample_stamp
              sample_nowMs sample_batch "alpha" fresh_worker sample_out
              sample_cache sample_cached_fields
              (VObj [("site", VStr "alpha")])
              Hp Hs Hsite eq_refl sample_run Hjson) as (_ & _ & Hv & _).
  rewrite Hv. reflexivity.
Defined.

Lemma processSite_touches_one_site_witness :
  (VObj [("site", VStr "beta")])?."site" <> VStr "alpha"
  /\ v3_gateway
       (worker_redis
          (processSite example_config noon sample_stamp sample_nowMs
             (Some sample_batch) "alpha" fresh_worker))
       (VObj [("site", VStr "beta")])
     = Replied 503
         (VObj [("success", VBool false);
                ("error",
                 VStr "Gateway list not available. Worker may be initializing.");
                ("code", VStr "CACHE_MISS")]).
Proof.
  assert (H : (VObj [("site", VStr "beta")])?."site" <> VStr "alpha")
    by (vm_compute; discriminate).
  split; [exact H |].
  rewrite (processSite_touches_one_site example_config noon sample_stamp
             sample_nowMs (Some sample_batch) "alpha" fresh_worker
             (VObj [("site", VStr "beta")]) H).
  reflexivity.
Defined.

Lemma failed_refresh_leaves_no_trace_witness :
  Exists (fun g => nullish g = true)
    (or_default (gateways null_gateway_batch) [])
  /\ processSite example_config noon sample_stamp sample_nowMs
       (Some null_gateway_batch) "alpha" fresh_worker
     = fresh_worker.
Proof.
  assert (H : Exists (fun g => nullish g = true)
                (or_default (gateways null_gateway_batch) [])).
  { right. left. reflexivity. }
  split; [exact H |].
  apply (failed_refresh_leaves_no_trace example_config noon sample_stamp
           sample_nowMs (Some null_gateway_batch) "alpha" fresh_worker).
  intros b [= <-]. right. exact H.
Defined.

Lemma sites_in_either_order_witness :
  "alpha" <> "beta"
  /\ cache_ok (worker_filter fresh_worker)
  /\ forall body,
       v3_gateway
         (worker_redis
            (processSite example_config noon sample_stamp sample_nowMs
               (Some second_batch) "beta"
               (processSite example_config noon sample_stamp sample_nowMs
                  (Some sample_batch) "alpha" fresh_worker))) body
       = v3_gateway
           (worker_redis
              (processSite example_config noon sample_stamp sample_nowMs
                 (Some sample_batch) "alpha"
                 (processSite example_config noon sample_stamp sample_nowMs
                    (Some second_batch) "beta" fresh_worker))) body.
Proof.
  assert (H1 : "alpha" <> "beta") by discriminate.
  assert (H2 : cache_ok (worker_filter fresh_worker)) by exact cache_ok_nil.
  split; [exact H1 |]. split; [exact H2 |].
  exact (proj2 (sites_in_either_order example_config noon noon sample_stamp
                  sample_stamp sample_nowMs sample_nowMs (Some sample_batch)
                  (Some second_batch) "alpha" "beta" fresh_worker H1 H2)).
Defined.
